(** * CatClient launcher core (progarmv0.py): a shallow embedding

    The development follows the Python source function by function:
    - Python [str] values are [string] (characters are code points below 256);
    - file contents are [list byte];
    - the dictionaries [self.versions] and the on-disk store are [gmap]s;
    - decoded JSON documents are records whose optional keys are [option]s;
    - effects (file store, urlretrieve log, message boxes) are threaded
      through an explicit state record;
    - the accounts dictionary, whose key order shows in the list box, is
      an association list with the update rules of a Python [dict].

    Library functions whose result depends on the host ([os.path.join],
    [os.path.expanduser], [platform.system]) are the fields of a [Host]
    record that the embedded functions take as an argument.

    [build_launch_command] calls two methods, [is_java_installed] and
    [generate_offline_uuid], that the class does not define: a call of
    either raises AttributeError.  The calls are modelled as lookups in
    the list of the methods of the class; the [Host] record holds what
    the two methods would return, which the statements of lines 383-442
    are written against. *)

From Stdlib Require Import ZArith List Bool Ascii String Lia.
From Stdlib Require Import Init.Byte Numbers.DecimalString.
From stdpp Require Import gmap strings list.

Import ListNotations.
Local Open Scope Z_scope.

(** ** Python string primitives *)

Module PyStr.

(** [s.startswith(k)] *)
Definition startswith (k s : string) : bool := String.prefix k s.

(** [k in s] for strings: [k] occurs as a contiguous substring of [s]. *)
Fixpoint contains (k s : string) : bool :=
  String.prefix k s ||
  match s with
  | EmptyString => false
  | String _ s' => contains k s'
  end.

(** Left-to-right scan of [s.replace(k, v)] for a non-empty [k]: at an
    occurrence of [k] emit [v] and skip the rest of the occurrence
    ([skip] counts the characters of it still to drop); otherwise copy
    the character. *)
Fixpoint replace_from (k v : string) (skip : nat) (s : string) : string :=
  match s with
  | EmptyString => EmptyString
  | String c s' =>
      match skip with
      | S n => replace_from k v n s'
      | O =>
          if String.prefix k s
          then v +:+ replace_from k v (String.length k - 1) s'
          else String c (replace_from k v 0 s')
      end
  end.

(** With an empty [k] Python inserts [v] before every character and at
    the end. *)
Fixpoint interleave (v s : string) : string :=
  match s with
  | EmptyString => v
  | String c s' => v +:+ String c (interleave v s')
  end.

(** [s.replace(k, v)] *)
Definition replace (k v s : string) : string :=
  match k with
  | EmptyString => interleave v s
  | String _ _ => replace_from k v 0 s
  end.

(** [str.isspace] on one character, for code points below 256. *)
Definition isspace (c : ascii) : bool :=
  let n := nat_of_ascii c in
  ((9 <=? n) && (n <=? 13) || (28 <=? n) && (n <=? 32)
   || (n =? 133) || (n =? 160))%nat.

(** [s.split()]: maximal runs of non-whitespace characters, in order.
    [cur] is the word being read, reversed. *)
Fixpoint split_go (cur : option string) (s : string) : list string :=
  match s with
  | EmptyString => option_list (String.rev <$> cur)
  | String c s' =>
      if isspace c
      then option_list (String.rev <$> cur) ++ split_go None s'
      else split_go (Some (String c (default EmptyString cur))) s'
  end.

Definition split (s : string) : list string := split_go None s.

(** [sep.join(l)] *)
Fixpoint join (sep : string) (l : list string) : string :=
  match l with
  | [] => EmptyString
  | [x] => x
  | x :: rest => x +:+ sep +:+ join sep rest
  end.

(** [str(n)] for an integer. *)
Definition of_int (n : Z) : string := NilZero.string_of_int (Z.to_int n).

(** [s.upper()] / [s.lower()] on ASCII letters. *)
Definition upper_char (c : ascii) : ascii :=
  let n := nat_of_ascii c in
  if ((97 <=? n) && (n <=? 122))%nat then ascii_of_nat (n - 32) else c.
Definition lower_char (c : ascii) : ascii :=
  let n := nat_of_ascii c in
  if ((65 <=? n) && (n <=? 90))%nat then ascii_of_nat (n + 32) else c.
Fixpoint map_chars (f : ascii -> ascii) (s : string) : string :=
  match s with
  | EmptyString => EmptyString
  | String c s' => String (f c) (map_chars f s')
  end.
Definition upper : string -> string := map_chars upper_char.
Definition lower : string -> string := map_chars lower_char.

End PyStr.

(** ** hashlib.sha1 (FIPS 180-4), on 32-bit words kept in [Z] *)

Module Sha1.

Definition mask32 (x : Z) : Z := Z.land x 4294967295.
Definition add32 (x y : Z) : Z := mask32 (x + y).
Definition rotl (n x : Z) : Z :=
  mask32 (Z.lor (Z.shiftl x n) (Z.shiftr x (32 - n))).
Definition not32 (x : Z) : Z := Z.lxor x 4294967295.

Definition byte_val (b : byte) : Z := Z.of_N (Byte.to_N b).

(** Big-endian encoding of [x] on [n] bytes. *)
Fixpoint be_bytes (n : nat) (x : Z) : list Z :=
  match n with
  | O => []
  | S m => Z.land (Z.shiftr x (8 * Z.of_nat m)) 255 :: be_bytes m x
  end.

(** Message padding: a [0x80] byte, zeros up to 56 modulo 64, then the
    bit length on 64 bits. *)
Definition pad (msg : list Z) : list Z :=
  let len := Z.of_nat (List.length msg) in
  msg ++ [128] ++ repeat 0 (Z.to_nat ((55 - len) mod 64)) ++ be_bytes 8 (8 * len).

(** Big-endian 32-bit words of a byte list (length a multiple of 4). *)
Fixpoint words_of (bs : list Z) : list Z :=
  match bs with
  | b0 :: b1 :: b2 :: b3 :: rest =>
      (Z.shiftl b0 24 + Z.shiftl b1 16 + Z.shiftl b2 8 + b3) :: words_of rest
  | _ => []
  end.

(** Message schedule; [rw] holds [w(t-1), w(t-2), ...]. *)
Fixpoint expand (n : nat) (rw : list Z) : list Z :=
  match n with
  | O => rw
  | S m =>
      let w := rotl 1 (Z.lxor (Z.lxor (nth 2 rw 0) (nth 7 rw 0))
                              (Z.lxor (nth 13 rw 0) (nth 15 rw 0))) in
      expand m (w :: rw)
  end.
Definition schedule (block : list Z) : list Z :=
  List.rev (expand 64 (List.rev block)).

Record regs := Regs { ra : Z; rb : Z; rc : Z; rd : Z; re : Z }.

Definition round (st : regs * nat) (w : Z) : regs * nat :=
  let '(Regs a b c d e, t) := st in
  let '(f, k) :=
    if (t <? 20)%nat then (Z.lor (Z.land b c) (Z.land (not32 b) d), 1518500249)
    else if (t <? 40)%nat then (Z.lxor (Z.lxor b c) d, 1859775393)
    else if (t <? 60)%nat
         then (Z.lor (Z.lor (Z.land b c) (Z.land b d)) (Z.land c d), 2400959708)
    else (Z.lxor (Z.lxor b c) d, 3395469782) in
  let temp := add32 (add32 (add32 (add32 (rotl 5 a) f) e) k) w in
  (Regs temp a (rotl 30 b) c d, S t).

Definition compress (h : regs) (block : list Z) : regs :=
  let '(Regs a b c d e, _) := fold_left round (schedule block) (h, O) in
  Regs (add32 (ra h) a) (add32 (rb h) b) (add32 (rc h) c)
       (add32 (rd h) d) (add32 (re h) e).

(** Consume the padded message sixteen words at a time. *)
Fixpoint blocks (fuel : nat) (ws : list Z) (h : regs) : regs :=
  match fuel, ws with
  | S f, _ :: _ => blocks f (skipn 16 ws) (compress h (firstn 16 ws))
  | _, _ => h
  end.

Definition init : regs :=
  Regs 1732584193 4023233417 2562383102 271733878 3285377520.

Definition digest (msg : list byte) : list Z :=
  let ws := words_of (pad (List.map byte_val msg)) in
  let '(Regs a b c d e) := blocks (List.length ws) ws init in
  be_bytes 4 a ++ be_bytes 4 b ++ be_bytes 4 c ++ be_bytes 4 d ++ be_bytes 4 e.

(** Lower-case hexadecimal digit of a value below 16. *)
Definition hex_digit (n : Z) : ascii :=
  if n <? 10 then ascii_of_N (Z.to_N (48 + n)) else ascii_of_N (Z.to_N (87 + n)).

Fixpoint hex_of_bytes (bs : list Z) : string :=
  match bs with
  | [] => EmptyString
  | b :: rest =>
      String (hex_digit (Z.shiftr b 4))
        (String (hex_digit (Z.land b 15)) (hex_of_bytes rest))
  end.

(** [hashlib.sha1(data).hexdigest()] *)
Definition hexdigest (msg : list byte) : string := hex_of_bytes (digest msg).

End Sha1.

(** ** Decoded JSON documents *)

(** One entry of a ["rules"] array.  [r_features] is ["features" in r];
    [r_action] is [r["action"]] (required by the manifest schema);
    [r_os] is [None] when the rule has no ["os"] key, [Some None] when the
    ["os"] object has no ["name"], and [Some (Some n)] when it names [n]. *)
Record rule := Rule {
  r_features : bool;
  r_action : string;
  r_os : option (option string)
}.

(** The ["value"] of a conditional argument: a list of strings or one string. *)
Inductive arg_value :=
| ValList (l : list string)
| ValStr (s : string).

(** One entry of ["arguments"]["jvm"] or ["arguments"]["game"]: a string, a
    dict with both ["rules"] and ["value"], or anything else. *)
Inductive argument :=
| ArgStr (s : string)
| ArgRules (rules : list rule) (value : arg_value)
| ArgOther.

(** One entry of ["libraries"]: [Some p] when the entry has ["downloads"]
    with an ["artifact"], whose ["path"] is [p]. *)
Record library := Library { lib_artifact_path : option string }.

(** The ["arguments"] object: [a_jvm] is [.get("jvm", [])]; [a_game] is
    [None] when the ["game"] key is absent. *)
Record arguments := Arguments_ {
  a_jvm : list argument;
  a_game : option (list argument)
}.

(** ["downloads"]["client"] of a version document. *)
Record client_download := ClientDownload { cd_url : string; cd_sha1 : string }.

(** A version document ([<version>.json]). *)
Record version_data := VersionData {
  vd_mainClass : option string;
  vd_assetIndex_id : option string;
  vd_type : option string;
  vd_libraries : list library;
  vd_arguments : option arguments;
  vd_minecraftArguments : option string;
  vd_client : option client_download
}.

(** One entry of the manifest's ["versions"] and the manifest itself. *)
Record manifest_version := ManifestVersion {
  mv_id : string;
  mv_type : string;
  mv_url : string
}.

Record manifest := Manifest {
  m_latest_release : string;
  m_latest_snapshot : string;
  m_versions : list manifest_version
}.

(** ** The host *)

(** What the launcher obtains from the interpreter and the machine:
    [os.path.join] (two arguments; longer calls nest to the left),
    [os.path.expanduser], [platform.system()], [json.dump] as the bytes it
    writes, and the values the two methods [is_java_installed] and
    [generate_offline_uuid] would return; the class does not define them
    (see [CatClient_methods]). *)
Record Host := {
  path_join : string -> string -> string;
  expanduser : string -> string;
  platform_system : string;
  json_dump : version_data -> list byte;
  is_java_installed : bool;
  generate_offline_uuid : string -> string
}.

(** What the network answers: [urlopen(url)] followed by [json.loads]
    for the two documents, and the bytes [urlretrieve] stores.  [None]
    stands for a raised exception. *)
Record Net := {
  get_manifest : string -> option manifest;
  get_version_json : string -> option version_data;
  get_bytes : string -> option (list byte)
}.

Section Constants.
Context (h : Host).

Definition MINECRAFT_DIR : string := expanduser h "~/.minecraft".
Definition VERSIONS_DIR : string := path_join h MINECRAFT_DIR "versions".
Definition JAVA_DIR : string := expanduser h "~/.catclient/java".
End Constants.

Definition VERSION_MANIFEST_URL : string :=
  "https://launchermeta.mojang.com/mc/game/version_manifest.json".

(** ** evaluate_rules *)

(** [r.get("os",{}).get("name") == os_name] *)
Definition os_name_is (r : rule) (os_name : string) : bool :=
  match r_os r with
  | Some (Some n) => String.eqb n os_name
  | _ => false
  end.

(** ["os" in r] *)
Definition has_os (r : rule) : bool :=
  match r_os r with Some _ => true | None => false end.

(** The body of the [for r in rules] loop, [allowed] being the variable
    it updates. *)
Fixpoint evaluate_rules_loop (rules : list rule) (os_name : string)
    (allowed : bool) : bool :=
  match rules with
  | [] => allowed
  | r :: rest =>
      if r_features r then evaluate_rules_loop rest os_name allowed
      else if String.eqb (r_action r) "allow" then
        if negb (has_os r) || os_name_is r os_name
        then evaluate_rules_loop rest os_name true
        else evaluate_rules_loop rest os_name allowed
      else if String.eqb (r_action r) "disallow" then
        if has_os r && os_name_is r os_name
        then evaluate_rules_loop rest os_name false
        else evaluate_rules_loop rest os_name allowed
      else evaluate_rules_loop rest os_name allowed
  end.

Definition evaluate_rules (rules : list rule) (os_name : string) : bool :=
  match rules with
  | [] => true
  | _ :: _ => evaluate_rules_loop rules os_name false
  end.

(** ** Version manifest *)

(** The launcher object's two dictionaries. *)
Record catalog := Catalog {
  versions : gmap string string;
  version_categories : gmap string (list string)
}.

(** [self.version_categories] as [__init__] creates it. *)
Definition initial_categories : gmap string (list string) :=
  list_to_map
    [("Latest Release", []); ("Latest Snapshot", []); ("Release", []);
     ("Snapshot", []); ("Old Beta", []); ("Old Alpha", [])].

Definition initial_catalog : catalog := Catalog ∅ initial_categories.

(** [self.version_categories[k].append(vid)] *)
Definition bucket_append (k vid : string) (cats : gmap string (list string))
    : gmap string (list string) :=
  alter (fun l => l ++ [vid]) k cats.

(** One iteration of [for v in manifest["versions"]]. *)
Definition classify_step (latest_rel latest_snap : string)
    (c : catalog) (v : manifest_version) : catalog :=
  let vid := mv_id v in
  let vs := <[vid := mv_url v]> (versions c) in
  let cats := version_categories c in
  let cats' :=
    if String.eqb vid latest_rel then bucket_append "Latest Release" vid cats
    else if String.eqb vid latest_snap then bucket_append "Latest Snapshot" vid cats
    else if String.eqb (mv_type v) "release" then bucket_append "Release" vid cats
    else if String.eqb (mv_type v) "snapshot" then bucket_append "Snapshot" vid cats
    else if String.eqb (mv_type v) "old_beta" then bucket_append "Old Beta" vid cats
    else if String.eqb (mv_type v) "old_alpha" then bucket_append "Old Alpha" vid cats
    else cats in
  Catalog vs cats'.

(** [load_version_manifest]: on an exception while fetching or parsing
    nothing has been assigned yet and the catalog stays as it was. *)
Definition load_version_manifest (net : Net) (c : catalog) : catalog :=
  match get_manifest net VERSION_MANIFEST_URL with
  | None => c
  | Some m =>
      let cleared := Catalog (versions c) ((fun _ => []) <$> version_categories c) in
      fold_left (classify_step (m_latest_release m) (m_latest_snapshot m))
                (m_versions m) cleared
  end.

(** ** Downloading and verifying the client jar *)

(** The part of the machine [download_version_files] acts on: the files
    by path, the URLs handed to [urlretrieve] (oldest first, whether or
    not the transfer succeeded) and the error dialogs shown. *)
Record world := World {
  files : gmap string (list byte);
  urlretrieve_calls : list string;
  dialogs : list string
}.

(** [verify_file]; [None] when [open] raises because the file is absent. *)
Definition verify_file (fs : gmap string (list byte)) (filepath sha1sum : string)
    : option bool :=
  match fs !! filepath with
  | None => None
  | Some content => Some (String.eqb (Sha1.hexdigest content) sha1sum)
  end.

(** [os.path.exists(jar_path) and self.verify_file(jar_path, sha1)] *)
Definition jar_is_valid (fs : gmap string (list byte)) (jar_path sha1 : string) : bool :=
  match fs !! jar_path with
  | None => false
  | Some _ => default false (verify_file fs jar_path sha1)
  end.

(** Lines 343-346: the client jar is fetched unless a verified copy is in
    place; a failed transfer raises (caught by the caller, the store is
    as before); a mismatch after the transfer only shows a dialog. *)
Definition ensure_client_jar (net : Net) (client_url sha1 jar_path : string)
    (w : world) : world :=
  if jar_is_valid (files w) jar_path sha1 then w
  else
    let calls := urlretrieve_calls w ++ [client_url] in
    match get_bytes net client_url with
    | None => World (files w) calls (dialogs w)
    | Some content =>
        let fs := <[jar_path := content]> (files w) in
        if default false (verify_file fs jar_path sha1)
        then World fs calls (dialogs w)
        else World fs calls (dialogs w ++ ["JAR checksum mismatch"])
    end.

Section Download.
Context (h : Host) (net : Net).

Definition version_dir (version_id : string) : string :=
  path_join h (VERSIONS_DIR h) version_id.

Definition jar_path_of (version_id : string) : string :=
  path_join h (version_dir version_id) (version_id +:+ ".jar").

Definition json_path_of (version_id : string) : string :=
  path_join h (version_dir version_id) (version_id +:+ ".json").

(** [download_version_files]: every exception inside the [try] ends the
    function with what has been written so far. *)
Definition download_version_files (version_id version_url : string)
    (w : world) : world :=
  match get_version_json net version_url with
  | None => w
  | Some data =>
      let w1 := World (<[json_path_of version_id := json_dump h data]> (files w))
                      (urlretrieve_calls w) (dialogs w) in
      match vd_client data with
      | None => w1
      | Some cl =>
          ensure_client_jar net (cd_url cl) (cd_sha1 cl) (jar_path_of version_id) w1
      end
  end.
End Download.

(** ** build_launch_command *)

(** The two argument loops (lines 389-398 and 408-417): [acc] is the list
    being appended to. *)
Fixpoint extend_with_arguments (args : list argument) (current_os : string)
    (acc : list string) : list string :=
  match args with
  | [] => acc
  | arg :: rest =>
      let acc' :=
        match arg with
        | ArgStr s => acc ++ [s]
        | ArgRules rules val =>
            if evaluate_rules rules current_os then
              match val with
              | ValList l => acc ++ l
              | ValStr v => acc ++ [v]
              end
            else acc
        | ArgOther => acc
        end in
      extend_with_arguments rest current_os acc'
  end.

(** The library loop (lines 374-377). *)
Fixpoint extend_classpath (join : string -> string -> string)
    (libraries_dir : string) (libs : list library) (classpath : list string)
    : list string :=
  match libs with
  | [] => classpath
  | lib :: rest =>
      let classpath' :=
        match lib_artifact_path lib with
        | Some path => classpath ++ [join libraries_dir path]
        | None => classpath
        end in
      extend_classpath join libraries_dir rest classpath'
  end.

(** [replace_ph]: one [str.replace] per entry of [replacements], in the
    order of the dictionary. *)
Fixpoint replace_ph (replacements : list (string * string)) (a : string) : string :=
  match replacements with
  | [] => a
  | (k, v) :: rest => replace_ph rest (PyStr.replace k v a)
  end.

Definition default_main_class : string := "net.minecraft.client.main.Main".

(** ** Method calls on the launcher object *)

(** What a call ends with: a value, or an exception. *)
Inductive py_exception :=
| AttributeError (name : string).

Inductive py_result (A : Type) :=
| Returned (a : A)
| Raised (e : py_exception).
Arguments Returned {A}.
Arguments Raised {A}.

Definition py_bind {A B : Type} (r : py_result A) (k : A -> py_result B)
    : py_result B :=
  match r with
  | Returned a => k a
  | Raised e => Raised e
  end.

(** The methods that the [class CatClient] statement defines, in the
    order of the file. *)
Definition CatClient_methods : list string :=
  [ "__init__"; "load_json"; "save_json"; "create_widgets"; "build_main_tab";
    "build_profile_tab"; "build_mods_tab"; "refresh_account_list"; "add_account";
    "remove_account"; "save_current_profile"; "refresh_profiles";
    "load_selected_profile"; "select_mod_folder"; "load_version_manifest";
    "update_version_list"; "prepare_and_launch"; "download_and_launch";
    "download_version_files"; "verify_file"; "build_launch_command";
    "evaluate_rules"; "install_java_if_needed"; "select_skin" ].

(** [self.name(...)] for a name that is not an attribute set on the
    instance: a method of the class returns its [value]; any other name
    goes to [tk.Tk] and its [__getattr__], which for the two names used
    here know nothing either, and the lookup raises AttributeError. *)
Definition call_method {A : Type} (methods : list string) (name : string)
    (value : A) : py_result A :=
  if existsb (String.eqb name) methods then Returned value
  else Raised (AttributeError name).

Section Launch.
Context (h : Host).

(** [platform.system().lower()], with ["darwin"] renamed to ["osx"]. *)
Definition current_os : string :=
  let s := PyStr.lower (platform_system h) in
  if String.eqb s "darwin" then "osx" else s.

Definition is_windows : bool := String.eqb current_os "windows".

Definition classpath_of (version : string) (vd : version_data) : list string :=
  extend_classpath (path_join h) (path_join h (MINECRAFT_DIR h) "libraries")
    (vd_libraries vd) [jar_path_of h version].

Definition classpath_str (version : string) (vd : version_data) : string :=
  if is_windows then PyStr.join ";" (classpath_of version vd)
  else PyStr.join ":" (classpath_of version vd).

Definition java_exe : string :=
  if is_java_installed h then "java"
  else path_join h (path_join h (path_join h (JAVA_DIR h) "jdk-21.0.5+11") "bin")
         (if is_windows then "java.exe" else "java").

(** [cmd] after the JVM-argument loop (lines 385-398). *)
Definition cmd_after_jvm (ram : Z) (vd : version_data) : list string :=
  let cmd := [java_exe; "-Xmx" +:+ PyStr.of_int ram +:+ "G"] in
  match vd_arguments vd with
  | Some a => extend_with_arguments (a_jvm a) current_os cmd
  | None => cmd
  end.

Definition natives_flag (version : string) : string :=
  "-Djava.library.path=" +:+ path_join h (version_dir h version) "natives".

(** Lines 399-403 applied to [cmd]. *)
Definition jvm_fixups (version : string) (cmd : list string) : list string :=
  let cmd1 :=
    if String.eqb current_os "osx"
       && negb (bool_decide ("-XstartOnFirstThread" ∈ cmd))
    then cmd ++ ["-XstartOnFirstThread"] else cmd in
  if negb (existsb (PyStr.contains "-Djava.library.path") cmd1)
  then cmd1 ++ [natives_flag version] else cmd1.

(** Lines 406-419. *)
Definition game_args_of (vd : version_data) : list string :=
  match vd_arguments vd with
  | Some (Arguments_ _ (Some game)) => extend_with_arguments game current_os []
  | _ =>
      match vd_minecraftArguments vd with
      | Some blob => PyStr.split blob
      | None => []
      end
  end.

(** The [replacements] dictionary, in insertion order. *)
Definition replacements (version username : string) (vd : version_data)
    : list (string * string) :=
  [ ("${auth_player_name}", username);
    ("${version_name}", version);
    ("${game_directory}", MINECRAFT_DIR h);
    ("${assets_root}", path_join h (MINECRAFT_DIR h) "assets");
    ("${assets_index_name}", default "legacy" (vd_assetIndex_id vd));
    ("${auth_uuid}", generate_offline_uuid h username);
    ("${auth_access_token}", "0");
    ("${user_type}", "legacy");
    ("${version_type}", default "release" (vd_type vd));
    ("${user_properties}", "{}");
    ("${quickPlayRealms}", "") ].

(** The body of [build_launch_command] for a class with the given
    methods.  [version_json] is the result of reading and parsing
    [<version>.json] ([None] when that raises, and the function returns
    the empty list).  Lines 366-378 run first; line 382 calls
    [self.is_java_installed()], whose value [java_exe] goes by; the
    argument loops follow; line 421 calls [self.generate_offline_uuid],
    whose value is in [replacements]. *)
Definition build_launch_command_in (methods : list string)
    (version_json : option version_data) (version username : string) (ram : Z)
    : py_result (list string) :=
  match version_json with
  | None => Returned []
  | Some vd =>
      let main_class := default default_main_class (vd_mainClass vd) in
      let classpath := classpath_str version vd in
      py_bind (call_method methods "is_java_installed" (is_java_installed h)) (fun _ =>
      let cmd := jvm_fixups version (cmd_after_jvm ram vd) in
      let game_args := game_args_of vd in
      py_bind (call_method methods "generate_offline_uuid"
                 (generate_offline_uuid h username)) (fun _ =>
      Returned
        ((cmd ++ ["-cp"; classpath; main_class])
         ++ List.map (replace_ph (replacements version username vd)) game_args)))
  end.

(** [build_launch_command] of the class as the file has it. *)
Definition build_launch_command (version_json : option version_data)
    (version username : string) (ram : Z) : py_result (list string) :=
  build_launch_command_in CatClient_methods version_json version username ram.
End Launch.

(** The class completed with the two methods it lacks. *)
Definition completed_methods : list string :=
  CatClient_methods ++ ["is_java_installed"; "generate_offline_uuid"].

(** A POSIX host for concrete runs: [posixpath.join] on two arguments and
    [expanduser] with the given home directory. *)
Definition posix_join (a b : string) : string :=
  if PyStr.startswith "/" b then b
  else if String.eqb a "" || PyStr.startswith "/" (String.rev a) then a +:+ b
  else a +:+ "/" +:+ b.

Definition posix_expanduser (home p : string) : string :=
  match p with
  | String "~" rest =>
      if String.eqb rest "" || PyStr.startswith "/" rest then home +:+ rest else p
  | _ => p
  end.

(** Characters of a lower-case hexadecimal string. *)
Definition is_lower_hex (c : ascii) : bool :=
  existsb (Ascii.eqb c) (list_ascii_of_string "0123456789abcdef").

Fixpoint all_chars (f : ascii -> bool) (s : string) : bool :=
  match s with
  | EmptyString => true
  | String c s' => f c && all_chars f s'
  end.

(** ** Offline identity *)

(** An identity derivation for the sample host, of the kind the
    specification describes: a 128-bit value derived from the user name
    by [scheme], written as sixteen big-endian bytes in hexadecimal,
    grouped 8-4-4-4-12.  The file itself has no such function. *)
Definition uuid_of_bytes (bs : list Z) : string :=
  Sha1.hex_of_bytes (firstn 4 bs) +:+ "-"
  +:+ Sha1.hex_of_bytes (firstn 2 (skipn 4 bs)) +:+ "-"
  +:+ Sha1.hex_of_bytes (firstn 2 (skipn 6 bs)) +:+ "-"
  +:+ Sha1.hex_of_bytes (firstn 2 (skipn 8 bs)) +:+ "-"
  +:+ Sha1.hex_of_bytes (skipn 10 bs).

Definition derive_offline_uuid (scheme : string -> Z) (username : string) : string :=
  uuid_of_bytes (Sha1.be_bytes 16 (scheme username)).

(** The shape of a UUID string: 36 characters, hyphens at positions 8,
    13, 18 and 23, lower-case hexadecimal digits elsewhere. *)
Definition is_hyphen_position (pos : nat) : bool :=
  ((pos =? 8) || (pos =? 13) || (pos =? 18) || (pos =? 23))%nat.

Fixpoint check_uuid (pos : nat) (s : string) : bool :=
  match s with
  | EmptyString => (pos =? 36)%nat
  | String c s' =>
      (if is_hyphen_position pos then Ascii.eqb c "-" else is_lower_hex c)
      && check_uuid (S pos) s'
  end.

Definition is_uuid_format (s : string) : bool := check_uuid 0 s.

(** A sample derivation: the first sixteen bytes of the SHA-1 digest of
    ["OfflinePlayer:" + username], read as a big-endian number. *)
Definition sample_scheme (username : string) : Z :=
  fold_left (fun acc b => acc * 256 + b)
    (firstn 16 (Sha1.digest (list_byte_of_string ("OfflinePlayer:" +:+ username)))) 0.

Definition posix_host (system : string) (java : bool) : Host :=
  {| path_join := posix_join;
     expanduser := posix_expanduser "/home/alex";
     platform_system := system;
     json_dump := fun _ => [];
     is_java_installed := java;
     generate_offline_uuid := derive_offline_uuid sample_scheme |}.

(** ** Specification-side definitions *)

(** The rule evaluator as the specification words it: a rule carrying
    only a feature constraint is skipped; an Allow rule with no os
    constraint or with the platform's name sets the accumulator; a
    Disallow rule with the platform's name clears it. *)
Definition spec_rule_step (platform : string) (allowed : bool) (r : rule) : bool :=
  if r_features r && negb (has_os r) then allowed
  else if String.eqb (r_action r) "allow" && (negb (has_os r) || os_name_is r platform)
  then true
  else if String.eqb (r_action r) "disallow" && os_name_is r platform
  then false
  else allowed.

Definition spec_evaluate (rules : list rule) (platform : string) : bool :=
  match rules with
  | [] => true
  | _ :: _ => fold_left (spec_rule_step platform) rules false
  end.

(** What one rule decides on a platform: [Some true] for an Allow rule
    that applies, [Some false] for a Disallow rule that applies, [None]
    when the rule leaves the accumulator alone.  Every rule with a
    feature constraint is of the last kind. *)
Definition rule_verdict (platform : string) (r : rule) : option bool :=
  if r_features r then None
  else if String.eqb (r_action r) "allow" then
    if negb (has_os r) || os_name_is r platform then Some true else None
  else if String.eqb (r_action r) "disallow" then
    if os_name_is r platform then Some false else None
  else None.

Definition verdict_step (platform : string) (allowed : bool) (r : rule) : bool :=
  default allowed (rule_verdict platform r).

(** The channel a manifest entry is filed under: the two latest pointers
    first, then the entry's type; [None] for an unknown type. *)
Definition channel_of (latest_rel latest_snap : string) (v : manifest_version)
    : option string :=
  if String.eqb (mv_id v) latest_rel then Some "Latest Release"
  else if String.eqb (mv_id v) latest_snap then Some "Latest Snapshot"
  else if String.eqb (mv_type v) "release" then Some "Release"
  else if String.eqb (mv_type v) "snapshot" then Some "Snapshot"
  else if String.eqb (mv_type v) "old_beta" then Some "Old Beta"
  else if String.eqb (mv_type v) "old_alpha" then Some "Old Alpha"
  else None.

(** The ids of the entries filed under channel [k], in manifest order. *)
Definition ids_in_channel (latest_rel latest_snap k : string)
    (vs : list manifest_version) : list string :=
  List.map mv_id
    (List.filter (fun v => bool_decide (channel_of latest_rel latest_snap v = Some k)) vs).

(** The scenario of the specification: latest release 1.21, latest
    snapshot 1.22-pre1, and three listed versions. *)
Definition scenario_manifest : manifest :=
  Manifest "1.21" "1.22-pre1"
    [ ManifestVersion "1.21" "release" "https://example.org/1.21.json";
      ManifestVersion "1.22-pre1" "snapshot" "https://example.org/1.22-pre1.json";
      ManifestVersion "1.20" "release" "https://example.org/1.20.json" ].

Definition scenario_net : Net :=
  {| get_manifest := fun _ => Some scenario_manifest;
     get_version_json := fun _ => None;
     get_bytes := fun _ => None |}.

(** A version document that only names its client jar, the digest being
    that of the empty file; a server that answers every URL with it and
    with the given jar bytes; and a machine with no files. *)
Definition sample_descriptor : version_data :=
  VersionData None None None [] None None
    (Some (ClientDownload "https://example.org/client.jar"
             "da39a3ee5e6b4b0d3255bfef95601890afd80709")).

Definition sample_net (jar : list byte) : Net :=
  {| get_manifest := fun _ => None;
     get_version_json := fun _ => Some sample_descriptor;
     get_bytes := fun _ => Some jar |}.

Definition empty_world : world := World ∅ [] [].

(** The classpath entry of a library, if it has one. *)
Definition library_entry (join : string -> string -> string)
    (libraries_dir : string) (lib : library) : option string :=
  join libraries_dir <$> lib_artifact_path lib.

(** The platform fixups as the specification words them: the natives
    flag is withheld when an existing flag begins with its name. *)
Definition spec_jvm_fixups (h : Host) (version : string) (cmd : list string)
    : list string :=
  let cmd1 :=
    if String.eqb (current_os h) "osx"
       && negb (bool_decide ("-XstartOnFirstThread" ∈ cmd))
    then cmd ++ ["-XstartOnFirstThread"] else cmd in
  if negb (existsb (PyStr.startswith "-Djava.library.path") cmd1)
  then cmd1 ++ [natives_flag h version] else cmd1.

(** A version document with its ["mainClass"] key set or removed. *)
Definition with_mainClass (mc : option string) (vd : version_data) : version_data :=
  VersionData mc (vd_assetIndex_id vd) (vd_type vd) (vd_libraries vd)
    (vd_arguments vd) (vd_minecraftArguments vd) (vd_client vd).

(** A modern version document: two libraries with artifacts around one
    without, conditional JVM and game arguments, no ["mainClass"]. *)
Definition sample_version : version_data :=
  VersionData None (Some "17") (Some "release")
    [ Library (Some "com/a/a.jar"); Library None; Library (Some "org/b/b.jar");
      Library (Some "com/a/a.jar") ]
    (Some (Arguments_
       [ ArgRules [Rule false "allow" (Some (Some "osx"))] (ValList ["-XstartOnFirstThread"]);
         ArgRules [Rule false "allow" (Some (Some "windows"))] (ValStr "-XX:HeapDumpPath=x");
         ArgStr "-Dlauncher.opts=-Djava.library.path=/opt/natives" ]
       (Some [ ArgStr "--username"; ArgStr "${auth_player_name}";
               ArgStr "--version"; ArgStr "${version_name}";
               ArgRules [Rule true "allow" None] (ValStr "--demo") ])))
    None None.

(** A version document whose only JVM argument mentions the natives
    option inside another option's value. *)
Definition nested_option_version : version_data :=
  VersionData None None None []
    (Some (Arguments_ [ArgStr "-Dlauncher.opts=-Djava.library.path=/opt/natives"] None))
    None None.

(** Placeholder substitution as the specification words it: one pass
    over the token, left to right; where a known key starts, its value is
    emitted and the scan resumes after the key, the emitted text not
    being looked at again. *)
Fixpoint spec_substitute_from (tbl : list (string * string)) (skip : nat)
    (s : string) : string :=
  match s with
  | EmptyString => EmptyString
  | String c s' =>
      match skip with
      | S n => spec_substitute_from tbl n s'
      | O =>
          match List.find (fun kv => String.prefix (fst kv) s) tbl with
          | Some (k, v) => v +:+ spec_substitute_from tbl (String.length k - 1) s'
          | None => String c (spec_substitute_from tbl 0 s')
          end
      end
  end.

Definition spec_substitute (tbl : list (string * string)) (s : string) : string :=
  spec_substitute_from tbl 0 s.

(** The keys of [replacements]. *)
Definition placeholder_keys : list string :=
  [ "${auth_player_name}"; "${version_name}"; "${game_directory}";
    "${assets_root}"; "${assets_index_name}"; "${auth_uuid}";
    "${auth_access_token}"; "${user_type}"; "${version_type}";
    "${user_properties}"; "${quickPlayRealms}" ].

(** Two strings are compatible when one is a prefix of the other: a key
    can only start where the text read so far is compatible with it. *)
Definition compatible (a b : string) : bool := String.prefix a b || String.prefix b a.

(** Text is inert for a set of keys when from none of its positions a key
    could start, whatever follows the text. *)
Fixpoint inert (keys : list string) (t : string) : bool :=
  match t with
  | EmptyString => true
  | String _ t' => forallb (fun k => negb (compatible k t)) keys && inert keys t'
  end.

Definition string_tail (s : string) : string :=
  match s with
  | EmptyString => EmptyString
  | String _ s' => s'
  end.

(** A set of keys is separated when the keys are non-empty, no two
    different keys are compatible, and inside a key no key starts. *)
Definition separated (keys : list string) : bool :=
  forallb (fun k =>
    negb (String.eqb k "")
    && forallb (fun k' => negb (compatible k' k) || String.eqb k' k) keys
    && inert keys (string_tail k)) keys.

(** A token cut into pieces: text, or a reference to a key. *)
Inductive segment :=
| Lit (t : string)
| Key (k : string).

Definition segment_ok (keys : list string) (seg : segment) : bool :=
  match seg with
  | Lit t => inert keys t
  | Key k => bool_decide (k ∈ keys)
  end.

Definition segment_text (seg : segment) : string :=
  match seg with Lit t => t | Key k => k end.

Fixpoint render (segs : list segment) : string :=
  match segs with
  | [] => EmptyString
  | seg :: rest => segment_text seg +:+ render rest
  end.

(** Every key piece replaced by its value in the table (first binding),
    all at once. *)
Definition substitute_segment (tbl : list (string * string)) (seg : segment) : segment :=
  match seg with
  | Lit t => Lit t
  | Key k =>
      match (list_to_map tbl : gmap string string) !! k with
      | Some v => Lit v
      | None => Key k
      end
  end.

Definition substitute (tbl : list (string * string)) (segs : list segment) : string :=
  render (List.map (substitute_segment tbl) segs).

(** No occurrence of [k] starts inside [t] when [t] is followed by [r]. *)
Fixpoint no_start (k t r : string) : bool :=
  match t with
  | EmptyString => true
  | String _ t' => negb (String.prefix k (t +:+ r)) && no_start k t' r
  end.

(** The effect on one piece of replacing key [k] by [v]. *)
Definition replace_segment (k v : string) (seg : segment) : segment :=
  match seg with
  | Lit t => Lit t
  | Key k' => if String.eqb k' k then Lit v else Key k'
  end.

(** [c in s] for a character. *)
Fixpoint occurs (c : ascii) (s : string) : bool :=
  match s with
  | EmptyString => false
  | String x s' => Ascii.eqb x c || occurs c s'
  end.

(** A marker no key can start in or run into: its first character occurs
    in no key after the first position, and it is inert. *)
Definition unknown_marker (keys : list string) (m : string) : bool :=
  match m with
  | EmptyString => false
  | String c _ =>
      forallb (fun k => negb (occurs c (string_tail k))) keys && inert keys m
  end.

(** ** The version picker *)

(** The two comboboxes of the launcher tab: the selected category, the
    values offered by the version combobox and the text it shows. *)
Record version_picker := VersionPicker {
  category_var : string;
  combo_values : list string;
  combo_text : string
}.



(** The URL of the last entry of the manifest that has id [vid]. *)
Fixpoint last_url (vid : string) (vs : list manifest_version) : option string :=
  match vs with
  | [] => None
  | v :: rest =>
      match last_url vid rest with
      | Some u => Some u
      | None => if String.eqb (mv_id v) vid then Some (mv_url v) else None
      end
  end.

(** ** Launching *)

(** What a launch session accumulates: the machine and the command lines
    handed to [subprocess.Popen], oldest first. *)
Record session := Session {
  s_world : world;
  s_launched : list (list string)
}.

Definition show_error (msg : string) (w : world) : world :=
  World (files w) (urlretrieve_calls w) (dialogs w ++ [msg]).

(** [build_launch_command] from the file it opens: [json_load] is
    [json.load] on the bytes of [<version>.json]; when the file is absent
    or does not parse, the bare [except] shows the error and the result
    is the empty list. *)
Definition build_launch_command_from_disk (h : Host)
    (json_load : list byte -> option version_data)
    (version username : string) (ram : Z) (w : world)
    : py_result (list string) * world :=
  match files w !! json_path_of h version ≫= json_load with
  | Some vd => (build_launch_command h (Some vd) version username ram, w)
  | None =>
      (build_launch_command h None version username ram,
       show_error "Cannot read version json." w)
  end.

(** How a call of [download_and_launch] ends: the session it leaves and
    the exception that left it, if one did. *)
Record launch_run := LaunchRun {
  run_session : session;
  run_raised : option py_exception
}.

(** [download_and_launch] ([mod_folder] is passed on and never used).  An
    exception of [build_launch_command] is caught nowhere: it leaves the
    function before [subprocess.Popen]. *)
Definition download_and_launch (h : Host) (net : Net)
    (json_load : list byte -> option version_data)
    (known : gmap string string) (version username : string) (ram : Z)
    (s : session) : launch_run :=
  if String.eqb version "" then
    LaunchRun (Session (show_error "Select a version." (s_world s)) (s_launched s)) None
  else
    match known !! version with
    | None =>
        LaunchRun (Session (show_error "Version URL missing." (s_world s)) (s_launched s))
          None
    | Some version_url =>
        if String.eqb version_url "" then
          LaunchRun
            (Session (show_error "Version URL missing." (s_world s)) (s_launched s)) None
        else
          let w1 := download_version_files h net version version_url (s_world s) in
          let '(cmd, w2) :=
            build_launch_command_from_disk h json_load version username ram w1 in
          match cmd with
          | Raised e => LaunchRun (Session w2 (s_launched s)) (Some e)
          | Returned [] => LaunchRun (Session w2 (s_launched s)) None
          | Returned (x :: rest) =>
              LaunchRun (Session w2 (s_launched s ++ [x :: rest])) None
          end
    end.

(** [prepare_and_launch]: [install_java_if_needed] does nothing; the
    version is the text of the version combobox. *)
Definition prepare_and_launch (h : Host) (net : Net)
    (json_load : list byte -> option version_data)
    (c : catalog) (p : version_picker) (username : string) (ram : Z)
    (s : session) : launch_run :=
  download_and_launch h net json_load (versions c) (combo_text p) username ram s.

(** ** Accounts *)

(** A Python [dict] with string keys, in insertion order: assigning to a
    present key keeps its place, a new key goes to the end. *)
Module PyDict.
Section Dict.
Context {V : Type}.

(** [d.get(k)] *)
Fixpoint get (k : string) (d : list (string * V)) : option V :=
  match d with
  | [] => None
  | (k', v) :: rest => if String.eqb k' k then Some v else get k rest
  end.

(** [d[k] = v] *)
Fixpoint set (k : string) (v : V) (d : list (string * V)) : list (string * V) :=
  match d with
  | [] => [(k, v)]
  | (k', v') :: rest =>
      if String.eqb k' k then (k', v) :: rest else (k', v') :: set k v rest
  end.

(** [del d[k]] for a present key *)
Fixpoint del (k : string) (d : list (string * V)) : list (string * V) :=
  match d with
  | [] => []
  | (k', v') :: rest =>
      if String.eqb k' k then rest else (k', v') :: del k rest
  end.

(** [list(d)], the keys in order *)
Definition keys (d : list (string * V)) : list string := List.map fst d.

(** [k in d] *)
Definition mem (k : string) (d : list (string * V)) : bool :=
  existsb (String.eqb k) (keys d).
End Dict.
End PyDict.

(** The accounts of the launcher: the dictionary in memory, what
    [accounts.json] holds ([None] while nothing has been written) and the
    lines of the list box. *)
Record account_book (V : Type) := AccountBook {
  book_accounts : list (string * V);
  book_file : option (list (string * V));
  book_listbox : list string
}.
Arguments AccountBook {V}.
Arguments book_accounts {V}.
Arguments book_file {V}.
Arguments book_listbox {V}.

(** [save_json(self.accounts, ACCOUNTS_FILE)] then [refresh_account_list]. *)
Definition save_and_refresh {V : Type} (a : list (string * V)) : account_book V :=
  AccountBook a (Some a) (PyDict.keys a).

(** [add_account]: [input] is what the dialog returns ([None] when it is
    closed without OK); [empty] is the value [{}]. *)
Definition add_account {V : Type} (empty : V) (input : option string)
    (b : account_book V) : account_book V :=
  match input with
  | None => b
  | Some username =>
      if String.eqb username "" then b
      else save_and_refresh (PyDict.set username empty (book_accounts b))
  end.

(** [remove_account]: [sel] is the index of the selected line, if any; the
    list box answers an index it does not have with the empty string. *)
Definition remove_account {V : Type} (sel : option nat) (b : account_book V)
    : account_book V :=
  match sel with
  | None => b
  | Some i =>
      let username := default EmptyString (book_listbox b !! i) in
      if PyDict.mem username (book_accounts b)
      then save_and_refresh (PyDict.del username (book_accounts b))
      else b
  end.

(** What one argument entry contributes on a platform. *)
Definition argument_values (current_os : string) (arg : argument) : list string :=
  match arg with
  | ArgStr s => [s]
  | ArgRules rules (ValList l) => if evaluate_rules rules current_os then l else []
  | ArgRules rules (ValStr v) => if evaluate_rules rules current_os then [v] else []
  | ArgOther => []
  end.

(** [json.load] for the sample runs: the empty file that the sample host
    writes stands for the sample descriptor. *)
Definition sample_json_load (bytes : list byte) : option version_data :=
  match bytes with
  | [] => Some sample_descriptor
  | _ :: _ => None
  end.

(** An Allow rule with neither a feature nor an os constraint. *)
Definition unconditional_allow (r : rule) : bool :=
  negb (r_features r) && String.eqb (r_action r) "allow" && negb (has_os r).

(** A word of [str.split]: not empty, no whitespace character. *)
Definition not_space (c : ascii) : bool := negb (PyStr.isspace c).
Definition is_word (t : string) : bool :=
  negb (String.eqb t "") && all_chars not_space t.



(** A network that answers nothing. *)
Definition offline_net : Net :=
  {| get_manifest := fun _ => None;
     get_version_json := fun _ => None;
     get_bytes := fun _ => None |}.

(** The channels of the four known types. *)
Definition base_channels : list (string * string) :=
  [ ("release", "Release"); ("snapshot", "Snapshot");
    ("old_beta", "Old Beta"); ("old_alpha", "Old Alpha") ].

(** The scenario with one more entry, of a type the launcher does not
    know. *)
Definition pending_manifest : manifest :=
  Manifest "1.21" "1.22-pre1"
    (m_versions scenario_manifest
     ++ [ManifestVersion "1.23-exp" "pending" "https://example.org/1.23-exp.json"]).

Definition pending_net : Net :=
  {| get_manifest := fun _ => Some pending_manifest;
     get_version_json := fun _ => None;
     get_bytes := fun _ => None |}.

(** * Theorems *)

(** ** Strings *)

Lemma string_app_cons c (a b : string) : String c a +:+ b = String c (a +:+ b).
Proof. reflexivity. Qed.

Lemma string_app_nil_l (b : string) : "" +:+ b = b.
Proof. reflexivity. Qed.

Lemma string_app_assoc (a b c : string) : (a +:+ b) +:+ c = a +:+ (b +:+ c).
Proof.
  induction a as [|x a IH]; [reflexivity|].
  rewrite !string_app_cons. f_equal. exact IH.
Qed.

Lemma string_app_nil_r (a : string) : a +:+ "" = a.
Proof.
  induction a as [|x a IH]; [reflexivity|].
  rewrite string_app_cons. f_equal. exact IH.
Qed.

Lemma prefix_cons_cons a k b s :
  String.prefix (String a k) (String b s) = Ascii.eqb a b && String.prefix k s.
Proof.
  cbn [String.prefix]. destruct (ascii_dec a b) as [->|Hne].
  - rewrite Ascii.eqb_refl. reflexivity.
  - apply Ascii.eqb_neq in Hne. rewrite Hne. reflexivity.
Qed.

Lemma prefix_nil_l s : String.prefix "" s = true.
Proof. destruct s; reflexivity. Qed.

(** ** Rule evaluation *)

Lemma has_os_of_name r p : os_name_is r p = true -> has_os r = true.
Proof. unfold os_name_is, has_os. destruct (r_os r) as [[n|]|]; easy. Qed.

Lemma evaluate_rules_loop_fold rules p allowed :
  evaluate_rules_loop rules p allowed = fold_left (verdict_step p) rules allowed.
Proof.
  revert allowed. induction rules as [|r rest IH]; intros allowed; [reflexivity|].
  cbn [evaluate_rules_loop fold_left]. unfold verdict_step at 2, rule_verdict.
  destruct (r_features r); [apply IH|].
  destruct (String.eqb (r_action r) "allow").
  { destruct (negb (has_os r) || os_name_is r p); apply IH. }
  destruct (String.eqb (r_action r) "disallow"); [|apply IH].
  destruct (os_name_is r p) eqn:Hn.
  - rewrite (has_os_of_name _ _ Hn). apply IH.
  - rewrite andb_false_r. apply IH.
Qed.

Lemma evaluate_rules_loop_snoc rules r p allowed :
  evaluate_rules_loop (rules ++ [r]) p allowed =
  verdict_step p (evaluate_rules_loop rules p allowed) r.
Proof. rewrite !evaluate_rules_loop_fold, fold_left_app. reflexivity. Qed.

(** C1, counterexample: an Allow rule that names the platform and also
    carries a feature constraint is not "only feature-gated", so the
    wording makes it set the accumulator; the evaluator skips it. *)
Lemma evaluate_rules_feature_and_os_cex :
  let r := Rule true "allow" (Some (Some "linux")) in
  spec_evaluate [r] "linux" = true /\ evaluate_rules [r] "linux" = false.
Proof. split; reflexivity. Qed.

(** C1, as amended: the evaluator returns true on the empty list and
    otherwise folds the rules in order from false, every rule with a
    feature constraint (with or without an os constraint) being skipped,
    an applicable Allow setting and an applicable Disallow clearing the
    accumulator; so the last rule decides whenever it applies, a single
    Allow rule naming platform [o] is accepted exactly on [o], and on
    lists without feature constraints this is the evaluator of the
    specification. *)
Theorem evaluate_rules_spec (rules : list rule) (p o : string) (r : rule) :
  evaluate_rules [] p = true
  /\ evaluate_rules (r :: rules) p = fold_left (verdict_step p) (r :: rules) false
  /\ evaluate_rules (rules ++ [r]) p =
       default (evaluate_rules_loop rules p false) (rule_verdict p r)
  /\ evaluate_rules [Rule false "allow" (Some (Some o))] p = String.eqb o p
  /\ (if forallb (fun x => negb (r_features x)) rules
      then bool_decide (evaluate_rules rules p = spec_evaluate rules p) else true) = true.
Proof.
  split; [reflexivity|]. split; [apply evaluate_rules_loop_fold|].
  split.
  { assert (evaluate_rules (rules ++ [r]) p =
            evaluate_rules_loop (rules ++ [r]) p false) as ->
      by (destruct rules; reflexivity).
    apply evaluate_rules_loop_snoc. }
  split.
  { cbn. destruct (String.eqb o p); reflexivity. }
  destruct (forallb _ rules) eqn:Hf; [|reflexivity].
  apply bool_decide_eq_true.
  destruct rules as [|x xs]; [reflexivity|].
  unfold evaluate_rules, spec_evaluate. rewrite evaluate_rules_loop_fold.
  generalize false. revert Hf. generalize (x :: xs). clear.
  induction l as [|y l IH]; intros Hf b; [reflexivity|].
  cbn [forallb] in Hf. apply andb_true_iff in Hf as [Hy Hl].
  cbn [fold_left]. rewrite IH by assumption. f_equal.
  unfold verdict_step, rule_verdict, spec_rule_step.
  apply negb_true_iff in Hy. rewrite Hy.
  destruct (String.eqb (r_action y) "allow"),
    (String.eqb (r_action y) "disallow"), (has_os y), (os_name_is y p);
    reflexivity.
Qed.

(** ** Version manifest *)

Lemma classify_step_categories lr ls c v :
  version_categories (classify_step lr ls c v) =
  match channel_of lr ls v with
  | Some ch => bucket_append ch (mv_id v) (version_categories c)
  | None => version_categories c
  end.
Proof.
  unfold classify_step, channel_of. cbn [version_categories].
  repeat match goal with |- context [if ?b then _ else _] => destruct b end;
    reflexivity.
Qed.

Lemma fold_classify_categories lr ls vs c k :
  version_categories (fold_left (classify_step lr ls) vs c) !! k =
  (fun l => l ++ ids_in_channel lr ls k vs) <$> version_categories c !! k.
Proof.
  revert c. induction vs as [|v vs IH]; intros c; cbn [fold_left].
  - unfold ids_in_channel. cbn.
    destruct (version_categories c !! k); cbn; [rewrite app_nil_r|]; reflexivity.
  - rewrite IH, classify_step_categories. unfold ids_in_channel.
    cbn [List.filter]. destruct (channel_of lr ls v) as [ch|] eqn:Hch.
    + unfold bucket_append. rewrite lookup_alter.
      destruct (decide (ch = k)) as [->|Hne].
      * rewrite bool_decide_eq_true_2 by reflexivity.
        destruct (version_categories c !! k); cbn; [|reflexivity].
        rewrite <- app_assoc. reflexivity.
      * rewrite bool_decide_eq_false_2 by congruence. reflexivity.
    + rewrite bool_decide_eq_false_2 by congruence. reflexivity.
Qed.

Lemma latest_release_channel lr ls v :
  mv_id v = lr -> channel_of lr ls v = Some "Latest Release".
Proof. intros <-. unfold channel_of. rewrite String.eqb_refl. reflexivity. Qed.

Lemma fold_classify_versions lr ls vs c vid :
  versions (fold_left (classify_step lr ls) vs c) !! vid =
  match last_url vid vs with
  | Some u => Some u
  | None => versions c !! vid
  end.
Proof.
  revert c. induction vs as [|v vs IH]; intros c; [reflexivity|].
  cbn [fold_left last_url]. rewrite IH.
  destruct (last_url vid vs); [reflexivity|].
  unfold classify_step. cbn [versions].
  destruct (String.eqb_spec (mv_id v) vid) as [->|Hne].
  - apply lookup_insert_eq.
  - apply lookup_insert_ne. exact Hne.
Qed.


Lemma listed_last_url vid vs v :
  In v vs -> mv_id v = vid -> is_Some (last_url vid vs).
Proof.
  induction vs as [|x vs IH]; [intros []|]. cbn [last_url In].
  intros [->|Hin] Hid.
  - destruct (last_url vid vs); [eauto|]. rewrite Hid, String.eqb_refl. eauto.
  - destruct (IH Hin Hid) as [u ->]. eauto.
Qed.

Lemma load_versions_lookup net c m vid :
  get_manifest net VERSION_MANIFEST_URL = Some m ->
  versions (load_version_manifest net c) !! vid =
  match last_url vid (m_versions m) with
  | Some u => Some u
  | None => versions c !! vid
  end.
Proof.
  intros Hm. unfold load_version_manifest. rewrite Hm, fold_classify_versions.
  reflexivity.
Qed.

Lemma load_categories net c m k :
  get_manifest net VERSION_MANIFEST_URL = Some m ->
  version_categories (load_version_manifest net c) !! k =
  (fun _ => ids_in_channel (m_latest_release m) (m_latest_snapshot m) k (m_versions m))
    <$> version_categories c !! k.
Proof.
  intros Hm. unfold load_version_manifest. rewrite Hm, fold_classify_categories.
  cbn [version_categories]. rewrite lookup_fmap.
  destruct (version_categories c !! k); reflexivity.
Qed.

(** C6, counterexample: on the scenario of the specification the Release
    bucket is [1.20]; version 1.21 is filed under Latest Release only. *)
Lemma load_version_manifest_scenario_cex :
  let cats := version_categories (load_version_manifest scenario_net initial_catalog) in
  cats !! "Latest Release" = Some ["1.21"]
  /\ cats !! "Latest Snapshot" = Some ["1.22-pre1"]
  /\ cats !! "Release" = Some ["1.20"]
  /\ cats !! "Release" <> Some ["1.21"; "1.20"].
Proof. vm_compute. repeat split; congruence. Qed.

Lemma channel_of_cases lr ls v :
  (channel_of lr ls v = Some "Latest Release" <-> mv_id v = lr)
  /\ (channel_of lr ls v = Some "Latest Snapshot" <-> mv_id v <> lr /\ mv_id v = ls)
  /\ (forall t name, In (t, name) base_channels ->
        (channel_of lr ls v = Some name <->
         mv_id v <> lr /\ mv_id v <> ls /\ mv_type v = t))
  /\ (channel_of lr ls v = None <->
      mv_id v <> lr /\ mv_id v <> ls
      /\ ~ In (mv_type v) ["release"; "snapshot"; "old_beta"; "old_alpha"]).
Proof.
  unfold channel_of, base_channels.
  destruct (String.eqb_spec (mv_id v) lr) as [Hlr|Hlr];
    [|destruct (String.eqb_spec (mv_id v) ls) as [Hls|Hls];
      [|destruct (String.eqb_spec (mv_type v) "release") as [Ht1|Ht1];
        [|destruct (String.eqb_spec (mv_type v) "snapshot") as [Ht2|Ht2];
          [|destruct (String.eqb_spec (mv_type v) "old_beta") as [Ht3|Ht3];
            [|destruct (String.eqb_spec (mv_type v) "old_alpha") as [Ht4|Ht4]]]]]].
  all: split; [split; [intros ?|intros ?]; congruence|].
  all: split; [split; [intros ?|intros [? ?]]; try split; congruence|].
  all: split;
    [intros t name Hin; cbn in Hin;
     destruct Hin as [[= <- <-]|[[= <- <-]|[[= <- <-]|[[= <- <-]|[]]]]];
     (split; [intros ?|intros (? & ? & ?)]; try (repeat split); congruence)|].
  all: split; [intros ?|intros (? & ? & Hn)]; try congruence.
  all: try (elim Hn; cbn; rewrite ?Ht1, ?Ht2, ?Ht3, ?Ht4; tauto).
  repeat split; try assumption. cbn. intuition congruence.
Qed.

Lemma in_channel_iff lr ls k vs vid :
  vid ∈ ids_in_channel lr ls k vs <->
  exists v, In v vs /\ mv_id v = vid /\ channel_of lr ls v = Some k.
Proof.
  unfold ids_in_channel. rewrite list_elem_of_In, in_map_iff. split.
  - intros (v & Hid & Hv). apply filter_In in Hv as [Hin Hch].
    apply bool_decide_eq_true in Hch. eauto.
  - intros (v & Hin & Hid & Hch). exists v. split; [exact Hid|].
    apply filter_In. split; [exact Hin|]. apply bool_decide_eq_true. exact Hch.
Qed.

Lemma unique_id_entry (vs : list manifest_version) v v' :
  NoDup (List.map mv_id vs) -> In v vs -> In v' vs -> mv_id v = mv_id v' -> v = v'.
Proof.
  induction vs as [|x vs IH]; [intros _ []|]. cbn [List.map].
  intros [Hx Hnd]%NoDup_cons [->|Hv] [->|Hv'] Hid; auto.
  - elim Hx. rewrite Hid. apply list_elem_of_In, in_map. exact Hv'.
  - elim Hx. rewrite <- Hid. apply list_elem_of_In, in_map. exact Hv.
Qed.

(** C6, as amended: every listed version is filed under at most one
    channel, chosen by precedence: Latest Release when its id is the
    latest-release pointer, else Latest Snapshot when its id is the
    latest-snapshot pointer, else the channel of its type, and none when
    the type is not one of the four known ones.  After a successful load
    each bucket holds, in manifest order, the ids of the entries whose
    channel it is; the id the latest-release pointer names is in no other
    bucket than Latest Release; with unique ids no id is in two buckets;
    and every listed version, filed or not, resolves by id. *)
Theorem load_version_manifest_buckets (net : Net) (c : catalog) (m : manifest)
    (k : string) (l : list string)
    (Hm : get_manifest net VERSION_MANIFEST_URL = Some m)
    (Hk : version_categories (load_version_manifest net c) !! k = Some l) :
  let lr := m_latest_release m in
  let ls := m_latest_snapshot m in
  l = ids_in_channel lr ls k (m_versions m)
  /\ is_Some (version_categories c !! k)
  /\ (k <> "Latest Release" -> lr ∉ l)
  /\ (forall vid, vid ∈ l <->
        exists v, In v (m_versions m) /\ mv_id v = vid /\ channel_of lr ls v = Some k)
  /\ (forall v,
        (channel_of lr ls v = Some "Latest Release" <-> mv_id v = lr)
        /\ (channel_of lr ls v = Some "Latest Snapshot" <->
            mv_id v <> lr /\ mv_id v = ls)
        /\ (forall t name, In (t, name) base_channels ->
              (channel_of lr ls v = Some name <->
               mv_id v <> lr /\ mv_id v <> ls /\ mv_type v = t))
        /\ (channel_of lr ls v = None <->
            mv_id v <> lr /\ mv_id v <> ls
            /\ ~ In (mv_type v) ["release"; "snapshot"; "old_beta"; "old_alpha"]))
  /\ (NoDup (List.map mv_id (m_versions m)) ->
      NoDup l
      /\ forall k' l' vid,
           version_categories (load_version_manifest net c) !! k' = Some l' ->
           vid ∈ l -> vid ∈ l' -> k' = k)
  /\ (forall v, In v (m_versions m) ->
        is_Some (versions (load_version_manifest net c) !! mv_id v)).
Proof.
  intros lr ls.
  assert (forall k0 l0,
             version_categories (load_version_manifest net c) !! k0 = Some l0 ->
             l0 = ids_in_channel lr ls k0 (m_versions m)
             /\ is_Some (version_categories c !! k0)) as Hbucket.
  { intros k0 l0 H0. rewrite (load_categories net c m k0 Hm) in H0.
    destruct (version_categories c !! k0) as [old|]; [|discriminate].
    cbn in H0. injection H0 as <-. split; [reflexivity | eauto]. }
  destruct (Hbucket k l Hk) as [-> Hsome].
  split; [reflexivity|]. split; [exact Hsome|]. split.
  { intros Hne (v & _ & Hid & Hch)%in_channel_iff.
    rewrite (latest_release_channel _ _ _ Hid) in Hch. congruence. }
  split; [intros vid; apply in_channel_iff|].
  split; [intros v; apply channel_of_cases|]. split.
  - intros Hnd. split.
    + unfold ids_in_channel. revert Hnd. generalize (m_versions m). clear.
      induction l as [|x vs IH]; cbn [List.map List.filter]; [constructor|].
      intros [Hx Hnd]%NoDup_cons. destruct (bool_decide _); [|exact (IH Hnd)].
      cbn [List.map]. apply NoDup_cons. split; [|exact (IH Hnd)].
      intros (y & Hid & Hy)%list_elem_of_In%in_map_iff. apply Hx.
      rewrite <- Hid. apply list_elem_of_In, in_map.
      apply filter_In in Hy as [Hy _]. exact Hy.
    + intros k' l' vid Hk' (v & Hv & Hid & Hch)%in_channel_iff Hin'.
      destruct (Hbucket k' l' Hk') as [-> _].
      apply in_channel_iff in Hin' as (v' & Hv' & Hid' & Hch').
      assert (v = v') as <- by (apply (unique_id_entry (m_versions m)); congruence).
      congruence.
  - intros v Hv. rewrite (load_versions_lookup net c m (mv_id v) Hm).
    destruct (listed_last_url (mv_id v) _ v Hv eq_refl) as [u ->]. eauto.
Qed.

Lemma load_version_manifest_buckets_witness :
  let cats := version_categories (load_version_manifest pending_net initial_catalog) in
  cats !! "Release" = Some ["1.20"]
  /\ ("1.21" ∉ ["1.20"])
  /\ (forall k l, cats !! k = Some l -> "1.23-exp" ∉ l)
  /\ is_Some (versions (load_version_manifest pending_net initial_catalog) !! "1.23-exp").
Proof.
  intros cats.
  assert (forall k l, cats !! k = Some l ->
            (forall vid, vid ∈ l <->
               exists v, In v (m_versions pending_manifest) /\ mv_id v = vid
                         /\ channel_of "1.21" "1.22-pre1" v = Some k)) as Hmem.
  { intros k l Hk.
    exact (proj1 (proj2 (proj2 (proj2
             (load_version_manifest_buckets pending_net initial_catalog
                pending_manifest k l eq_refl Hk))))). }
  destruct (load_version_manifest_buckets pending_net initial_catalog
              pending_manifest "Release" ["1.20"] eq_refl eq_refl)
    as (_ & _ & Hlatest & _ & _ & _ & Hresolve).
  split; [reflexivity|]. split; [apply Hlatest; discriminate|]. split.
  - intros k l Hk Hin. apply (Hmem k l Hk) in Hin as (v & Hv & Hid & Hch).
    cbn in Hv. destruct Hv as [<-|[<-|[<-|[<-|[]]]]]; try discriminate.
  - apply (Hresolve (ManifestVersion "1.23-exp" "pending"
                       "https://example.org/1.23-exp.json")).
    cbn. auto.
Defined.

(** ** Digest verification *)

Lemma hex_digit_lower n : 0 <= n < 16 -> is_lower_hex (Sha1.hex_digit n) = true.
Proof.
  intros Hn. rewrite <- (Z2Nat.id n) by lia.
  assert (Z.to_nat n < 16)%nat as Hlt by lia.
  generalize dependent (Z.to_nat n). clear. intros k Hlt.
  do 16 (destruct k as [|k]; [reflexivity|]). lia.
Qed.

Lemma be_bytes_range n x : Forall (fun b => 0 <= b < 256) (Sha1.be_bytes n x).
Proof.
  induction n as [|n IH]; cbn [Sha1.be_bytes]; constructor; [|exact IH].
  change 255 with (Z.ones 8). rewrite Z.land_ones by lia.
  apply Z.mod_pos_bound. reflexivity.
Qed.

Lemma hex_of_bytes_lower bs :
  Forall (fun b => 0 <= b < 256) bs ->
  all_chars is_lower_hex (Sha1.hex_of_bytes bs) = true
  /\ String.length (Sha1.hex_of_bytes bs) = (2 * List.length bs)%nat.
Proof.
  induction 1 as [|b bs Hb _ [IH1 IH2]]; [split; reflexivity|].
  cbn [Sha1.hex_of_bytes all_chars String.length List.length]. split.
  - rewrite IH1, !hex_digit_lower; [reflexivity| |].
    + change 15 with (Z.ones 4). rewrite Z.land_ones by lia.
      apply Z.mod_pos_bound. reflexivity.
    + rewrite Z.shiftr_div_pow2 by lia. change (2 ^ 4) with 16.
      split; [apply Z.div_pos; lia | apply Z.div_lt_upper_bound; lia].
  - rewrite IH2. lia.
Qed.

Lemma digest_range msg :
  Forall (fun b => 0 <= b < 256) (Sha1.digest msg)
  /\ List.length (Sha1.digest msg) = 20%nat.
Proof.
  unfold Sha1.digest.
  destruct (Sha1.blocks _ _ _) as [a b c d e].
  split; [repeat apply Forall_app_2; apply be_bytes_range | reflexivity].
Qed.

Lemma hexdigest_lower_hex msg :
  all_chars is_lower_hex (Sha1.hexdigest msg) = true
  /\ String.length (Sha1.hexdigest msg) = 40%nat.
Proof.
  destruct (digest_range msg) as [Hr Hl].
  destruct (hex_of_bytes_lower _ Hr) as [H1 H2].
  unfold Sha1.hexdigest. rewrite H1, H2, Hl. split; reflexivity.
Qed.

Lemma lower_char_hex c : is_lower_hex c = true -> PyStr.lower_char c = c.
Proof.
  unfold is_lower_hex. cbn [list_ascii_of_string existsb].
  rewrite !orb_true_iff.
  intros H; repeat (destruct H as [H | H]; [apply Ascii.eqb_eq in H as ->; reflexivity|]).
  discriminate.
Qed.

Lemma lower_hex_fixed s : all_chars is_lower_hex s = true -> PyStr.lower s = s.
Proof.
  induction s as [|c s IH]; [reflexivity|]. cbn [all_chars].
  intros [Hc Hs]%andb_true_iff. unfold PyStr.lower in *. cbn [PyStr.map_chars].
  rewrite (lower_char_hex _ Hc), (IH Hs). reflexivity.
Qed.

(** C7, counterexample: for the empty file, the upper-case spelling of
    its digest equals the computed digest up to letter case, and
    [verify_file] rejects it. *)
Lemma verify_file_upper_case_cex :
  let fs : gmap string (list byte) := {[ "client.jar" := [] ]} in
  let expected := "DA39A3EE5E6B4B0D3255BFEF95601890AFD80709" in
  PyStr.lower expected = PyStr.lower (Sha1.hexdigest [])
  /\ verify_file fs "client.jar" expected = Some false.
Proof. vm_compute. split; reflexivity. Qed.

(** C7, as amended: verification compares the file's SHA-1 hex digest,
    which is forty lower-case hexadecimal characters, with the expected
    digest by exact (case-sensitive) string equality: it succeeds exactly
    when the expected digest is that lower-case string, so never for an
    expected digest that contains an upper-case letter. *)
Theorem verify_file_exact (fs : gmap string (list byte)) (path expected : string)
    (content : list byte) (Hf : fs !! path = Some content) :
  (verify_file fs path expected = Some true <-> expected = Sha1.hexdigest content)
  /\ String.length (Sha1.hexdigest content) = 40%nat
  /\ PyStr.lower (Sha1.hexdigest content) = Sha1.hexdigest content
  /\ (PyStr.lower expected <> expected -> verify_file fs path expected = Some false).
Proof.
  destruct (hexdigest_lower_hex content) as [Hlow Hlen].
  pose proof (lower_hex_fixed _ Hlow) as Hfix.
  unfold verify_file. rewrite Hf.
  split.
  { split.
    - intros [= H]. apply String.eqb_eq in H. congruence.
    - intros ->. rewrite String.eqb_refl. reflexivity. }
  split; [exact Hlen|]. split; [exact Hfix|].
  intros Hne. f_equal. apply String.eqb_neq. congruence.
Qed.

Lemma verify_file_exact_witness :
  let fs : gmap string (list byte) := {[ "client.jar" := [] ]} in
  let expected := "DA39A3EE5E6B4B0D3255BFEF95601890AFD80709" in
  (verify_file fs "client.jar" expected = Some true <-> expected = Sha1.hexdigest [])
  /\ String.length (Sha1.hexdigest []) = 40%nat
  /\ PyStr.lower (Sha1.hexdigest []) = Sha1.hexdigest []
  /\ (PyStr.lower expected <> expected -> verify_file fs "client.jar" expected = Some false).
Proof.
  intros fs expected.
  apply (verify_file_exact fs "client.jar" expected []). reflexivity.
Defined.

(** ** The client jar cache *)

Lemma jar_is_valid_spec fs jar sha1 :
  jar_is_valid fs jar sha1 = true <->
  exists content, fs !! jar = Some content /\ Sha1.hexdigest content = sha1.
Proof.
  unfold jar_is_valid, verify_file. destruct (fs !! jar) as [c|]; cbn.
  - rewrite String.eqb_eq. split; [eauto|]. intros (c' & [= <-] & H). exact H.
  - split; [discriminate|]. intros (c' & [=] & _).
Qed.

Lemma jar_is_valid_insert fs jar sha1 content :
  jar_is_valid (<[jar := content]> fs) jar sha1 =
  String.eqb (Sha1.hexdigest content) sha1.
Proof. unfold jar_is_valid, verify_file. rewrite lookup_insert_eq. reflexivity. Qed.

Lemma jar_is_valid_insert_ne fs other jar sha1 content :
  other <> jar ->
  jar_is_valid (<[other := content]> fs) jar sha1 = jar_is_valid fs jar sha1.
Proof.
  intros Hne. unfold jar_is_valid, verify_file.
  rewrite lookup_insert_ne by exact Hne. reflexivity.
Qed.

Lemma ensure_client_jar_hit net url sha1 jar w :
  jar_is_valid (files w) jar sha1 = true ->
  ensure_client_jar net url sha1 jar w = w.
Proof. intros H. unfold ensure_client_jar. rewrite H. reflexivity. Qed.

Lemma ensure_client_jar_miss net url sha1 jar w :
  jar_is_valid (files w) jar sha1 = false ->
  urlretrieve_calls (ensure_client_jar net url sha1 jar w) = urlretrieve_calls w ++ [url]
  /\ files (ensure_client_jar net url sha1 jar w) =
       match get_bytes net url with
       | Some content => <[jar := content]> (files w)
       | None => files w
       end
  /\ dialogs (ensure_client_jar net url sha1 jar w) =
       match get_bytes net url with
       | Some content =>
           if String.eqb (Sha1.hexdigest content) sha1 then dialogs w
           else dialogs w ++ ["JAR checksum mismatch"]
       | None => dialogs w
       end.
Proof.
  intros H. unfold ensure_client_jar. rewrite H.
  destruct (get_bytes net url) as [content|]; [|repeat split].
  unfold verify_file. rewrite lookup_insert_eq. cbn [default].
  destruct (String.eqb (Sha1.hexdigest content) sha1); repeat split.
Qed.

Section DownloadFacts.
Context (h : Host) (net : Net) (version_id version_url : string).
Context (data : version_data) (cl : client_download).
Hypothesis Hjson : get_version_json net version_url = Some data.
Hypothesis Hclient : vd_client data = Some cl.
Hypothesis Hpaths : json_path_of h version_id <> jar_path_of h version_id.

Let jar := jar_path_of h version_id.
Let download := download_version_files h net version_id version_url.

Lemma download_valid_before w :
  jar_is_valid (files w) jar (cd_sha1 cl) = true ->
  urlretrieve_calls (download w) = urlretrieve_calls w
  /\ dialogs (download w) = dialogs w
  /\ files (download w) = <[json_path_of h version_id := json_dump h data]> (files w).
Proof.
  intros Hv. subst download. unfold download_version_files.
  rewrite Hjson, Hclient. rewrite ensure_client_jar_hit; [repeat split|].
  cbn [files]. rewrite jar_is_valid_insert_ne by exact Hpaths. exact Hv.
Qed.

Lemma download_invalid_before w :
  jar_is_valid (files w) jar (cd_sha1 cl) = false ->
  urlretrieve_calls (download w) = urlretrieve_calls w ++ [cd_url cl]
  /\ files (download w) !! jar =
       match get_bytes net (cd_url cl) with
       | Some content => Some content
       | None => files w !! jar
       end
  /\ dialogs (download w) =
       match get_bytes net (cd_url cl) with
       | Some content =>
           if String.eqb (Sha1.hexdigest content) (cd_sha1 cl) then dialogs w
           else dialogs w ++ ["JAR checksum mismatch"]
       | None => dialogs w
       end.
Proof.
  intros Hv. subst download. unfold download_version_files.
  rewrite Hjson, Hclient.
  match goal with |- context [ensure_client_jar _ _ _ _ ?w1] =>
    destruct (ensure_client_jar_miss net (cd_url cl) (cd_sha1 cl) jar w1)
      as (Hc & Hf & Hd) end.
  { cbn [files]. rewrite jar_is_valid_insert_ne by exact Hpaths. exact Hv. }
  fold jar. rewrite Hc, Hf, Hd. cbn [files urlretrieve_calls dialogs].
  split; [reflexivity|]. split; [|reflexivity].
  destruct (get_bytes net (cd_url cl)).
  - apply lookup_insert_eq.
  - apply lookup_insert_ne. exact Hpaths.
Qed.

Lemma download_validity_after w :
  jar_is_valid (files (download w)) jar (cd_sha1 cl) =
  if jar_is_valid (files w) jar (cd_sha1 cl) then true
  else match get_bytes net (cd_url cl) with
       | Some content => String.eqb (Sha1.hexdigest content) (cd_sha1 cl)
       | None => false
       end.
Proof.
  destruct (jar_is_valid (files w) jar (cd_sha1 cl)) eqn:Hv.
  - destruct (download_valid_before w Hv) as (_ & _ & ->).
    rewrite jar_is_valid_insert_ne by exact Hpaths. exact Hv.
  - destruct (download_invalid_before w Hv) as (_ & Hf & _).
    unfold jar_is_valid, verify_file in *. rewrite Hf.
    destruct (get_bytes net (cd_url cl)); [reflexivity|].
    destruct (files w !! jar); [exact Hv | reflexivity].
Qed.
Lemma download_json_written w :
  files (download w) !! json_path_of h version_id = Some (json_dump h data).
Proof.
  subst download. unfold download_version_files. rewrite Hjson, Hclient.
  unfold ensure_client_jar. cbn [files].
  destruct (jar_is_valid _ _ _); cbn [files]; [apply lookup_insert_eq|].
  destruct (get_bytes net (cd_url cl)); cbn [files]; [|apply lookup_insert_eq].
  destruct (default false _); cbn [files];
    (rewrite lookup_insert_ne by congruence); apply lookup_insert_eq.
Qed.
End DownloadFacts.

Lemma posix_join_suffix a b x y :
  exists p, posix_join a (b +:+ String x y) = p +:+ b +:+ String x y
            /\ forall x' y', PyStr.startswith "/" (b +:+ String x' y')
                             = PyStr.startswith "/" (b +:+ String x y) ->
                             posix_join a (b +:+ String x' y') = p +:+ b +:+ String x' y'.
Proof.
  unfold posix_join.
  destruct (PyStr.startswith "/" (b +:+ String x y)) eqn:Hs.
  { exists "". split; [reflexivity|]. intros x' y' ->. reflexivity. }
  destruct (String.eqb a "" || PyStr.startswith "/" (String.rev a)).
  - exists a. split; [reflexivity|]. intros x' y' ->. reflexivity.
  - exists (a +:+ "/").
    split; [|intros x' y' ->]; rewrite string_app_assoc; reflexivity.
Qed.

(** On a POSIX host the version document and the client jar never share
    a path. *)
Lemma posix_paths_distinct system java version_id :
  json_path_of (posix_host system java) version_id <>
  jar_path_of (posix_host system java) version_id.
Proof.
  unfold json_path_of, jar_path_of. cbn [path_join posix_host].
  generalize (version_dir (posix_host system java) version_id). intros dir.
  destruct (posix_join_suffix dir version_id "."%char "json") as (p & Hj & Hother).
  change (String "."%char "json") with ".json" in *.
  rewrite Hj. change ".jar" with (String "."%char "jar"). rewrite Hother.
  - intros H. do 2 apply String.app_inj in H. discriminate.
  - unfold PyStr.startswith. destruct version_id; [reflexivity|].
    rewrite !string_app_cons, !prefix_cons_cons, !prefix_nil_l. reflexivity.
Qed.

(** C2: the cache-hit path performs no transfer, and two calls in a row
    perform one transfer at most.  With the version document served and
    the jar and json paths distinct: (1) when a file is at the jar path
    and its digest is the expected one, the call hands nothing to
    [urlretrieve] and leaves that file in place; (2) when the server
    delivers the bytes of the expected digest, the second of two
    consecutive calls hands nothing to [urlretrieve] and changes no file,
    and the first one makes exactly one transfer if no verified jar was
    there. *)
Theorem download_version_files_idempotent (h : Host) (net : Net)
    (version_id version_url : string) (data : version_data)
    (cl : client_download) (w : world)
    (Hjson : get_version_json net version_url = Some data)
    (Hclient : vd_client data = Some cl)
    (Hpaths : json_path_of h version_id <> jar_path_of h version_id) :
  let download := download_version_files h net version_id version_url in
  let jar := jar_path_of h version_id in
  (forall content,
      files w !! jar = Some content ->
      Sha1.hexdigest content = cd_sha1 cl ->
      urlretrieve_calls (download w) = urlretrieve_calls w
      /\ files (download w) !! jar = Some content)
  /\ (forall content,
      get_bytes net (cd_url cl) = Some content ->
      Sha1.hexdigest content = cd_sha1 cl ->
      urlretrieve_calls (download (download w)) = urlretrieve_calls (download w)
      /\ files (download (download w)) = files (download w)
      /\ (jar_is_valid (files w) jar (cd_sha1 cl) = false ->
          urlretrieve_calls (download w) = urlretrieve_calls w ++ [cd_url cl])).
Proof.
  intros download jar. split.
  - intros content Hc Hd.
    assert (jar_is_valid (files w) jar (cd_sha1 cl) = true) as Hv
      by (apply jar_is_valid_spec; eauto).
    destruct (download_valid_before h net _ _ _ _ Hjson Hclient Hpaths w Hv)
      as (Hcalls & _ & Hfiles).
    split; [exact Hcalls|]. fold download in Hfiles. rewrite Hfiles.
    rewrite lookup_insert_ne by exact Hpaths. exact Hc.
  - intros content Hb Hd.
    assert (jar_is_valid (files (download w)) jar (cd_sha1 cl) = true) as Hv.
    { subst download jar.
      rewrite (download_validity_after h net _ _ _ _ Hjson Hclient Hpaths).
      rewrite Hb, Hd, String.eqb_refl.
      destruct (jar_is_valid _ _ _); reflexivity. }
    destruct (download_valid_before h net _ _ _ _ Hjson Hclient Hpaths _ Hv)
      as (Hcalls & _ & Hfiles).
    split; [exact Hcalls|]. split.
    + fold download in Hfiles. rewrite Hfiles. apply insert_id.
      apply (download_json_written h net _ _ _ _ Hjson Hclient Hpaths).
    + intros Hw.
      apply (download_invalid_before h net _ _ _ _ Hjson Hclient Hpaths w Hw).
Qed.

Lemma download_version_files_idempotent_witness :
  let h := posix_host "Linux" true in
  let download := download_version_files h (sample_net []) "1.21" "u" in
  let cached := World {[ jar_path_of h "1.21" := [] ]} [] [] in
  urlretrieve_calls (download cached) = []
  /\ urlretrieve_calls (download empty_world) = ["https://example.org/client.jar"]
  /\ urlretrieve_calls (download (download empty_world)) =
       urlretrieve_calls (download empty_world).
Proof.
  intros h download cached.
  assert (json_path_of h "1.21" <> jar_path_of h "1.21") as Hp
    by apply posix_paths_distinct.
  pose proof (download_version_files_idempotent h (sample_net []) "1.21" "u"
                sample_descriptor _ cached eq_refl eq_refl Hp) as [Hhit _].
  pose proof (download_version_files_idempotent h (sample_net []) "1.21" "u"
                sample_descriptor _ empty_world eq_refl eq_refl Hp) as [_ Htwice].
  destruct (Hhit [] eq_refl eq_refl) as [Hcalls _].
  destruct (Htwice [] eq_refl eq_refl) as (Hsecond & _ & Hfirst).
  split; [exact Hcalls|]. split; [exact (Hfirst eq_refl) | exact Hsecond].
Defined.

Example download_twice_run :
  let h := posix_host "Linux" true in
  let download := download_version_files h (sample_net []) "1.21" "u" in
  urlretrieve_calls (download empty_world) = ["https://example.org/client.jar"]
  /\ urlretrieve_calls (download (download empty_world)) =
       ["https://example.org/client.jar"]
  /\ dialogs (download (download empty_world)) = [].
Proof. vm_compute. repeat split; reflexivity. Qed.

(** C3: a jar whose digest does not match is never reused.  With the
    version document served and the jar and json paths distinct: (1) when
    the file at the jar path has another digest than the expected one,
    the call hands the client URL to [urlretrieve] and what the server
    sends replaces the file; (2) when a transfer delivers bytes of the
    wrong digest, the mismatch dialog is shown, the stored file does not
    pass for valid, and the next call transfers again. *)
Theorem download_version_files_reverifies (h : Host) (net : Net)
    (version_id version_url : string) (data : version_data)
    (cl : client_download) (w : world)
    (Hjson : get_version_json net version_url = Some data)
    (Hclient : vd_client data = Some cl)
    (Hpaths : json_path_of h version_id <> jar_path_of h version_id) :
  let download := download_version_files h net version_id version_url in
  let jar := jar_path_of h version_id in
  (forall bad,
      files w !! jar = Some bad ->
      Sha1.hexdigest bad <> cd_sha1 cl ->
      urlretrieve_calls (download w) = urlretrieve_calls w ++ [cd_url cl]
      /\ (forall content, get_bytes net (cd_url cl) = Some content ->
                          files (download w) !! jar = Some content))
  /\ (forall bad,
      jar_is_valid (files w) jar (cd_sha1 cl) = false ->
      get_bytes net (cd_url cl) = Some bad ->
      Sha1.hexdigest bad <> cd_sha1 cl ->
      dialogs (download w) = dialogs w ++ ["JAR checksum mismatch"]
      /\ files (download w) !! jar = Some bad
      /\ jar_is_valid (files (download w)) jar (cd_sha1 cl) = false
      /\ urlretrieve_calls (download (download w)) =
           urlretrieve_calls w ++ [cd_url cl; cd_url cl]).
Proof.
  intros download jar. split.
  - intros bad Hbad Hmis.
    assert (jar_is_valid (files w) jar (cd_sha1 cl) = false) as Hv.
    { apply not_true_iff_false. intros (c & Hc & Hd)%jar_is_valid_spec.
      rewrite Hbad in Hc. injection Hc as <-. exact (Hmis Hd). }
    destruct (download_invalid_before h net _ _ _ _ Hjson Hclient Hpaths w Hv)
      as (Hcalls & Hfiles & _).
    split; [exact Hcalls|]. intros content Hc. fold download jar in Hfiles.
    rewrite Hfiles, Hc. reflexivity.
  - intros bad Hv Hb Hmis.
    destruct (download_invalid_before h net _ _ _ _ Hjson Hclient Hpaths w Hv)
      as (Hcalls & Hfiles & Hdia).
    fold download jar in Hcalls, Hfiles, Hdia.
    apply String.eqb_neq in Hmis. rewrite Hb in Hfiles, Hdia. rewrite Hmis in Hdia.
    assert (jar_is_valid (files (download w)) jar (cd_sha1 cl) = false) as Hv1.
    { subst download jar.
      rewrite (download_validity_after h net _ _ _ _ Hjson Hclient Hpaths).
      rewrite Hv, Hb. exact Hmis. }
    repeat split; try assumption.
    destruct (download_invalid_before h net _ _ _ _ Hjson Hclient Hpaths _ Hv1)
      as (Hcalls2 & _).
    fold download in Hcalls2. rewrite Hcalls2, Hcalls, <- app_assoc. reflexivity.
Qed.

Lemma download_version_files_reverifies_witness :
  let h := posix_host "Linux" true in
  let jar := jar_path_of h "1.21" in
  let stale := World {[ jar := list_byte_of_string "corrupt" ]} [] [] in
  let good := download_version_files h (sample_net []) "1.21" "u" in
  let bad := download_version_files h
               (sample_net (list_byte_of_string "corrupt")) "1.21" "u" in
  (urlretrieve_calls (good stale) = ["https://example.org/client.jar"]
   /\ files (good stale) !! jar = Some [])
  /\ dialogs (bad empty_world) = ["JAR checksum mismatch"]
  /\ urlretrieve_calls (bad (bad empty_world)) =
       ["https://example.org/client.jar"; "https://example.org/client.jar"].
Proof.
  intros h jar stale good bad.
  assert (json_path_of h "1.21" <> jar_path_of h "1.21") as Hp
    by apply posix_paths_distinct.
  assert (Sha1.hexdigest (list_byte_of_string "corrupt") <>
          "da39a3ee5e6b4b0d3255bfef95601890afd80709") as Hmis
    by (vm_compute; discriminate).
  pose proof (download_version_files_reverifies h (sample_net []) "1.21" "u"
                sample_descriptor _ stale eq_refl eq_refl Hp) as [Hre _].
  pose proof (download_version_files_reverifies h
                (sample_net (list_byte_of_string "corrupt")) "1.21" "u"
                sample_descriptor _ empty_world eq_refl eq_refl Hp) as [_ Hagain].
  destruct (Hre _ eq_refl Hmis) as [Hcalls Hfiles].
  destruct (Hagain _ eq_refl eq_refl Hmis) as (Hdia & _ & _ & Hcalls2).
  split; [split; [exact Hcalls | exact (Hfiles [] eq_refl)]|].
  split; [exact Hdia | exact Hcalls2].
Defined.

Example download_corrupt_run :
  let h := posix_host "Linux" true in
  let net := sample_net (list_byte_of_string "corrupt") in
  let download := download_version_files h net "1.21" "u" in
  urlretrieve_calls (download (download empty_world)) =
    ["https://example.org/client.jar"; "https://example.org/client.jar"]
  /\ dialogs (download (download empty_world)) =
       ["JAR checksum mismatch"; "JAR checksum mismatch"].
Proof. vm_compute. repeat split; reflexivity. Qed.

(** ** Launch command *)

Lemma extend_classpath_acc join dir libs acc :
  extend_classpath join dir libs acc = acc ++ omap (library_entry join dir) libs.
Proof.
  revert acc. induction libs as [|lib libs IH]; intros acc; cbn [extend_classpath omap list_omap].
  - symmetry. apply app_nil_r.
  - rewrite IH. unfold library_entry at 2.
    destruct (lib_artifact_path lib); cbn; [rewrite <- app_assoc|]; reflexivity.
Qed.

Lemma extend_with_arguments_acc args os acc :
  extend_with_arguments args os acc = acc ++ extend_with_arguments args os [].
Proof.
  revert acc. induction args as [|a args IH]; intros acc; cbn [extend_with_arguments].
  - symmetry. apply app_nil_r.
  - rewrite IH. rewrite (IH (match a with ArgStr _ => _ | _ => _ end)).
    rewrite app_assoc. f_equal.
    destruct a as [s|rules [l|v]|]; cbn [app];
      try destruct (evaluate_rules rules os); cbn [app];
      rewrite ?app_nil_r; reflexivity.
Qed.

(** C4: the classpath is the client jar followed by one entry per
    library that has a downloadable artifact, in the order of the
    descriptor and without removing duplicates; libraries [A; B] after
    client jar C give [C; A; B]; the entries are joined with a semicolon
    when the platform is windows and with a colon otherwise. *)
Theorem classpath_order (h : Host) (version : string) (vd : version_data)
    (a b : string) :
  let dir := path_join h (MINECRAFT_DIR h) "libraries" in
  classpath_of h version vd =
    jar_path_of h version :: omap (library_entry (path_join h) dir) (vd_libraries vd)
  /\ classpath_of h version
       (VersionData None None None [Library (Some a); Library (Some b)] None None None) =
     [jar_path_of h version; path_join h dir a; path_join h dir b]
  /\ classpath_str h version vd =
     PyStr.join (if String.eqb (current_os h) "windows" then ";" else ":")
       (classpath_of h version vd).
Proof.
  intros dir.
  split; [unfold classpath_of; rewrite extend_classpath_acc; reflexivity|].
  split; [reflexivity|].
  unfold classpath_str, is_windows.
  destruct (String.eqb (current_os h) "windows"); reflexivity.
Qed.

Example classpath_run :
  classpath_str (posix_host "Linux" true) "1.21" sample_version =
    "/home/alex/.minecraft/versions/1.21/1.21.jar:/home/alex/.minecraft/libraries/com/a/a.jar:/home/alex/.minecraft/libraries/org/b/b.jar:/home/alex/.minecraft/libraries/com/a/a.jar"
  /\ classpath_str (posix_host "Windows" true) "1.21"
       (VersionData None None None [Library (Some "a.jar")] None None None) =
     "/home/alex/.minecraft/versions/1.21/1.21.jar;/home/alex/.minecraft/libraries/a.jar".
Proof. vm_compute. split; reflexivity. Qed.

Lemma existsb_startswith_contains k cmd :
  existsb (PyStr.startswith k) cmd && negb (existsb (PyStr.contains k) cmd) = false.
Proof.
  induction cmd as [|a cmd IH]; [reflexivity|]. cbn [existsb].
  unfold PyStr.startswith in *. destruct a as [|c a]; cbn [PyStr.contains];
    destruct (String.prefix k _); cbn [orb negb andb];
    try reflexivity; try exact IH;
    destruct (PyStr.contains k a); cbn [orb negb andb];
    try reflexivity; try exact IH;
    destruct (existsb _ cmd); reflexivity.
Qed.

Lemma existsb_contains_snoc k cmd x :
  PyStr.contains k x = false ->
  existsb (PyStr.contains k) (cmd ++ [x]) = existsb (PyStr.contains k) cmd.
Proof.
  intros Hx. rewrite existsb_app. cbn [existsb]. rewrite Hx.
  rewrite !orb_false_r. reflexivity.
Qed.

(** C8, counterexample: on macOS, with a JVM argument that mentions
    [-Djava.library.path] inside another option, no existing flag begins
    with [-Djava.library.path] and yet the natives flag is not appended. *)
Lemma jvm_fixups_contains_cex :
  let h := posix_host "Darwin" true in
  let cmd := cmd_after_jvm h 4 nested_option_version in
  cmd = ["java"; "-Xmx4G"; "-Dlauncher.opts=-Djava.library.path=/opt/natives"]
  /\ existsb (PyStr.startswith "-Djava.library.path") cmd = false
  /\ jvm_fixups h "1.21" cmd = cmd ++ ["-XstartOnFirstThread"]
  /\ spec_jvm_fixups h "1.21" cmd =
       cmd ++ ["-XstartOnFirstThread";
               "-Djava.library.path=/home/alex/.minecraft/versions/1.21/natives"]
  /\ jvm_fixups h "1.21" cmd <> spec_jvm_fixups h "1.21" cmd.
Proof. vm_compute. repeat split; congruence. Qed.

(** C8, as amended: the command built by the declarative pass (the
    executable, the -Xmx flag and the declared JVM flags) is kept as it
    is; -XstartOnFirstThread is appended when the platform is osx and no
    element equals it; then, on every platform,
    -Djava.library.path=<version-dir>/natives is appended unless some
    element of the command contains -Djava.library.path as a substring,
    which is in particular the case when one begins with it. *)
Theorem jvm_fixups_spec (h : Host) (version : string) (ram : Z)
    (vd : version_data) (cmd : list string) :
  jvm_fixups h version cmd =
    cmd
    ++ (if String.eqb (current_os h) "osx"
           && negb (bool_decide ("-XstartOnFirstThread" ∈ cmd))
        then ["-XstartOnFirstThread"] else [])
    ++ (if existsb (PyStr.contains "-Djava.library.path") cmd
        then [] else [natives_flag h version])
  /\ existsb (PyStr.startswith "-Djava.library.path") cmd
       && negb (existsb (PyStr.contains "-Djava.library.path") cmd) = false
  /\ cmd_after_jvm h ram vd =
       java_exe h :: ("-Xmx" +:+ PyStr.of_int ram +:+ "G")
       :: match vd_arguments vd with
          | Some a => extend_with_arguments (a_jvm a) (current_os h) []
          | None => []
          end.
Proof.
  split; [|split; [apply existsb_startswith_contains|]].
  - unfold jvm_fixups.
    destruct (String.eqb (current_os h) "osx"
              && negb (bool_decide ("-XstartOnFirstThread" ∈ cmd))).
    + rewrite existsb_contains_snoc by reflexivity.
      destruct (existsb _ cmd); cbn [negb]; rewrite <- ?app_assoc; reflexivity.
    + destruct (existsb _ cmd); cbn [negb app]; rewrite ?app_nil_r; reflexivity.
  - unfold cmd_after_jvm. destruct (vd_arguments vd) as [a|]; [|reflexivity].
    rewrite extend_with_arguments_acc. reflexivity.
Qed.

(** C10, as the file behaves: for every readable version document, with
    or without ["mainClass"], [build_launch_command] raises
    AttributeError at line 382, [is_java_installed] being no method of
    the class, so no command is constructed.  In the class completed
    with the two missing methods a document without ["mainClass"] gives
    net.minecraft.client.main.Main right after "-cp" and the joined
    classpath and right before the game arguments. *)
Theorem build_launch_command_attribute_error (h : Host) (vd : version_data)
    (version username : string) (ram : Z) :
  let vd0 := with_mainClass None vd in
  build_launch_command h (Some vd0) version username ram =
    Raised (AttributeError "is_java_installed")
  /\ build_launch_command h (Some vd) version username ram =
       Raised (AttributeError "is_java_installed")
  /\ build_launch_command_in h completed_methods (Some vd0) version username ram =
       Returned
         (jvm_fixups h version (cmd_after_jvm h ram vd0)
          ++ ["-cp"; classpath_str h version vd0; "net.minecraft.client.main.Main"]
          ++ List.map (replace_ph (replacements h version username vd0))
               (game_args_of h vd0)).
Proof.
  intros vd0. split; [reflexivity|]. split; [reflexivity|].
  unfold build_launch_command_in.
  change (call_method completed_methods "is_java_installed" (is_java_installed h))
    with (Returned (is_java_installed h)).
  change (call_method completed_methods "generate_offline_uuid"
            (generate_offline_uuid h username))
    with (Returned (generate_offline_uuid h username)).
  cbn [py_bind vd0 with_mainClass vd_mainClass default].
  rewrite <- app_assoc. reflexivity.
Qed.

(** ** Placeholder substitution *)

Lemma prefix_app_self k r : String.prefix k (k +:+ r) = true.
Proof.
  induction k as [|c k IH]; [apply prefix_nil_l|].
  rewrite string_app_cons, prefix_cons_cons, Ascii.eqb_refl. exact IH.
Qed.

(** A key that starts in front of [u +:+ r] is compatible with [u]. *)
Lemma prefix_app_compatible k u r :
  String.prefix k (u +:+ r) = true -> compatible k u = true.
Proof.
  unfold compatible. revert k. induction u as [|c u IH]; intros k H.
  - rewrite prefix_nil_l. apply orb_true_r.
  - destruct k as [|d k]; [reflexivity|].
    rewrite string_app_cons, prefix_cons_cons in H.
    apply andb_true_iff in H as [Hc Hk]. rewrite !prefix_cons_cons.
    rewrite (Ascii.eqb_sym c d), Hc. cbn [andb]. exact (IH _ Hk).
Qed.

Lemma replace_from_skip k v a r :
  PyStr.replace_from k v (String.length a) (a +:+ r) = PyStr.replace_from k v 0 r.
Proof.
  induction a as [|c a IH]; [reflexivity|].
  rewrite string_app_cons. exact IH.
Qed.

Lemma replace_key_here k v r :
  k <> "" -> PyStr.replace k v (k +:+ r) = v +:+ PyStr.replace k v r.
Proof.
  destruct k as [|c k]; [congruence|]. intros _. unfold PyStr.replace.
  rewrite string_app_cons. cbn [PyStr.replace_from].
  rewrite <- string_app_cons, prefix_app_self.
  replace (String.length (String c k) - 1)%nat with (String.length k)
    by (cbn [String.length]; lia).
  apply f_equal, replace_from_skip.
Qed.

Lemma replace_no_start k v t r :
  k <> "" -> no_start k t r = true ->
  PyStr.replace k v (t +:+ r) = t +:+ PyStr.replace k v r.
Proof.
  destruct k as [|c k]; [congruence|]. intros _. unfold PyStr.replace.
  induction t as [|x t IH]; intros H; [reflexivity|].
  cbn [no_start] in H. apply andb_true_iff in H as [Hp Ht].
  apply negb_true_iff in Hp. rewrite string_app_cons in *.
  cbn [PyStr.replace_from]. rewrite Hp, (IH Ht). reflexivity.
Qed.

Lemma inert_no_start keys k t r :
  k ∈ keys -> inert keys t = true -> no_start k t r = true.
Proof.
  intros Hk. induction t as [|x t IH]; intros H; [reflexivity|].
  cbn [inert] in H. apply andb_true_iff in H as [Hx Ht].
  cbn [no_start]. rewrite (IH Ht), andb_true_r. apply negb_true_iff.
  rewrite forallb_forall in Hx. specialize (Hx k).
  destruct (String.prefix k (String x t +:+ r)) eqn:Hp; [|reflexivity].
  apply prefix_app_compatible in Hp. rewrite Hp in Hx.
  apply list_elem_of_In in Hk. specialize (Hx Hk). discriminate.
Qed.

Lemma separated_key keys k :
  separated keys = true -> k ∈ keys ->
  k <> ""
  /\ (forall k', k' ∈ keys -> compatible k' k = true -> k' = k)
  /\ inert keys (string_tail k) = true.
Proof.
  unfold separated. rewrite forallb_forall. intros H Hk.
  apply list_elem_of_In in Hk. specialize (H k Hk).
  apply andb_true_iff in H as [[Hne Hcompat]%andb_true_iff Hin].
  split; [|split; [|exact Hin]].
  - apply negb_true_iff, String.eqb_neq in Hne. exact Hne.
  - intros k' Hk' Hc. rewrite forallb_forall in Hcompat.
    apply list_elem_of_In in Hk'. specialize (Hcompat k' Hk').
    rewrite Hc in Hcompat. apply String.eqb_eq. exact Hcompat.
Qed.

(** A different key is copied by the replacement of [k]. *)
Lemma replace_other_key keys k k' v r :
  separated keys = true -> k ∈ keys -> k' ∈ keys -> k <> k' ->
  PyStr.replace k v (k' +:+ r) = k' +:+ PyStr.replace k v r.
Proof.
  intros Hsep Hk Hk' Hne.
  destruct (separated_key keys k Hsep Hk) as (Hk0 & _ & _).
  destruct (separated_key keys k' Hsep Hk') as (Hk'0 & Hc & Hin).
  apply replace_no_start; [exact Hk0|].
  destruct k' as [|c t]; [congruence|]. cbn [no_start string_tail] in *.
  rewrite (inert_no_start keys k t r Hk Hin), andb_true_r.
  apply negb_true_iff. destruct (String.prefix k _) eqn:Hp; [|reflexivity].
  apply prefix_app_compatible in Hp. elim Hne. exact (Hc k Hk Hp).
Qed.

Lemma replace_render keys k v segs :
  separated keys = true -> k ∈ keys ->
  forallb (segment_ok keys) segs = true ->
  PyStr.replace k v (render segs) = render (List.map (replace_segment k v) segs).
Proof.
  intros Hsep Hk. destruct (separated_key keys k Hsep Hk) as (Hk0 & _ & _).
  induction segs as [|seg segs IH]; intros Hok.
  - destruct k; [congruence | reflexivity].
  - cbn [forallb] in Hok. apply andb_true_iff in Hok as [Hseg Hsegs].
    cbn [List.map render]. rewrite <- (IH Hsegs).
    destruct seg as [t|k']; cbn [segment_ok segment_text replace_segment] in *.
    + apply replace_no_start; [exact Hk0|]. apply (inert_no_start keys); assumption.
    + apply bool_decide_eq_true in Hseg.
      destruct (String.eqb_spec k' k) as [->|Hne]; cbn [segment_text].
      * apply replace_key_here. exact Hk0.
      * apply (replace_other_key keys); auto.
Qed.

Lemma replace_segment_ok keys k v seg :
  inert keys v = true -> segment_ok keys seg = true ->
  segment_ok keys (replace_segment k v seg) = true.
Proof.
  intros Hv. destruct seg as [t|k']; cbn [replace_segment]; [auto|].
  destruct (String.eqb k' k); auto.
Qed.

Lemma substitute_cons k v tbl segs :
  List.map (substitute_segment tbl) (List.map (replace_segment k v) segs) =
  List.map (substitute_segment ((k, v) :: tbl)) segs.
Proof.
  rewrite List.map_map. apply List.map_ext. intros [t|k']; [reflexivity|].
  cbn [replace_segment substitute_segment]. rewrite list_to_map_cons.
  destruct (String.eqb_spec k' k) as [->|Hne].
  - rewrite lookup_insert_eq. reflexivity.
  - rewrite lookup_insert_ne by congruence. reflexivity.
Qed.

Lemma replace_ph_render keys tbl segs :
  separated keys = true ->
  forallb (fun kv => bool_decide (fst kv ∈ keys) && inert keys (snd kv)) tbl = true ->
  forallb (segment_ok keys) segs = true ->
  replace_ph tbl (render segs) = substitute tbl segs.
Proof.
  intros Hsep. revert segs. induction tbl as [|[k v] tbl IH]; intros segs Htbl Hsegs.
  - unfold substitute. cbn [replace_ph]. f_equal. symmetry.
    rewrite <- (List.map_id segs) at 2. apply List.map_ext.
    intros [t|k]; reflexivity.
  - cbn [forallb fst snd] in Htbl.
    apply andb_true_iff in Htbl as [[Hk Hv]%andb_true_iff Htbl].
    apply bool_decide_eq_true in Hk. cbn [replace_ph].
    rewrite (replace_render keys) by assumption.
    rewrite IH; [unfold substitute; rewrite substitute_cons; reflexivity|exact Htbl|].
    rewrite forallb_forall in *. intros seg [s0 [<- Hin]]%in_map_iff.
    apply replace_segment_ok; auto.
Qed.

Lemma replace_absent k v a : PyStr.contains k a = false -> PyStr.replace k v a = a.
Proof.
  destruct k as [|c k]; [destruct a; discriminate|]. unfold PyStr.replace.
  induction a as [|x a IH]; intros H; [reflexivity|].
  cbn [PyStr.contains] in H. apply orb_false_iff in H as [Hp Ha].
  cbn [PyStr.replace_from]. rewrite Hp, (IH Ha). reflexivity.
Qed.

Lemma replace_ph_absent tbl a :
  forallb (fun kv => negb (PyStr.contains (fst kv) a)) tbl = true ->
  replace_ph tbl a = a.
Proof.
  induction tbl as [|[k v] tbl IH]; intros H; [reflexivity|].
  cbn [forallb fst] in H. apply andb_true_iff in H as [Hk Htbl].
  apply negb_true_iff in Hk. cbn [replace_ph].
  rewrite (replace_absent _ _ _ Hk). exact (IH Htbl).
Qed.

Lemma prefix_app_l k u r : String.prefix k u = true -> String.prefix k (u +:+ r) = true.
Proof.
  revert k. induction u as [|x u IH]; intros [|d k] H;
    try apply prefix_nil_l; [cbn in H; discriminate|].
  rewrite string_app_cons, prefix_cons_cons in *.
  apply andb_true_iff in H as [-> Hk]. exact (IH _ Hk).
Qed.

Lemma prefix_length k u : String.prefix k u = true -> (String.length k <= String.length u)%nat.
Proof.
  revert k. induction u as [|x u IH]; intros [|d k] H; cbn [String.length];
    try lia; [cbn in H; discriminate|].
  rewrite prefix_cons_cons in H. apply andb_true_iff in H as [_ Hk].
  specialize (IH _ Hk). lia.
Qed.

(** A text without [c] that starts in front of [u] followed by [c] ends
    inside [u]. *)
Lemma prefix_stops_before k u c r :
  occurs c k = false ->
  String.prefix k (u +:+ String c r) = true -> String.prefix k u = true.
Proof.
  revert k. induction u as [|x u IH]; intros [|d k] Hc H; try apply prefix_nil_l.
  - rewrite string_app_nil_l, prefix_cons_cons in H. cbn [occurs] in Hc.
    apply orb_false_iff in Hc as [Hd _]. rewrite Hd in H. discriminate.
  - rewrite string_app_cons, prefix_cons_cons in *. cbn [occurs] in Hc.
    apply orb_false_iff in Hc as [_ Hk].
    apply andb_true_iff in H as [-> H]. exact (IH _ Hk H).
Qed.

Lemma replace_from_split k v c r pre n :
  k <> "" -> occurs c (string_tail k) = false ->
  (n <= String.length pre)%nat ->
  PyStr.replace_from k v n (pre +:+ String c r) =
  PyStr.replace_from k v n pre +:+ PyStr.replace_from k v 0 (String c r).
Proof.
  destruct k as [|d k]; [congruence|]. cbn [string_tail]. intros _ Hc.
  revert n. induction pre as [|x pre IH]; intros n Hn.
  - cbn [String.length] in Hn. replace n with 0%nat by lia. reflexivity.
  - rewrite string_app_cons. cbn [String.length] in Hn.
    destruct n as [|n]; cbn [PyStr.replace_from].
    + destruct (String.prefix (String d k) (String x pre)) eqn:Hp.
      * rewrite <- string_app_cons, (prefix_app_l _ _ _ Hp).
        apply prefix_length in Hp. cbn [String.length] in Hp |- *.
        rewrite IH by lia. rewrite string_app_assoc. reflexivity.
      * destruct (String.prefix (String d k) (String x (pre +:+ String c r))) eqn:Hq.
        { rewrite prefix_cons_cons in Hp, Hq.
          apply andb_true_iff in Hq as [Hdx Hq].
          rewrite Hdx, (prefix_stops_before _ _ _ _ Hc Hq) in Hp. discriminate. }
        rewrite IH by lia. reflexivity.
    + apply IH. lia.
Qed.

Lemma replace_frame keys k v pre m post :
  separated keys = true -> k ∈ keys -> unknown_marker keys m = true ->
  PyStr.replace k v (pre +:+ m +:+ post) =
  PyStr.replace k v pre +:+ m +:+ PyStr.replace k v post.
Proof.
  intros Hsep Hk Hm. destruct (separated_key keys k Hsep Hk) as (Hk0 & _ & _).
  destruct m as [|c m]; [discriminate|]. cbn [unknown_marker] in Hm.
  apply andb_true_iff in Hm as [Hc Hin].
  rewrite forallb_forall in Hc. apply list_elem_of_In in Hk as Hk'.
  specialize (Hc k Hk'). apply negb_true_iff in Hc.
  rewrite <- (replace_no_start k v (String c m) post Hk0)
    by (apply (inert_no_start keys); assumption).
  destruct k as [|d k]; [congruence|]. unfold PyStr.replace.
  rewrite string_app_cons. apply replace_from_split; [congruence|exact Hc|lia].
Qed.

Lemma replace_ph_frame keys tbl pre m post :
  separated keys = true ->
  forallb (fun k => bool_decide (k ∈ keys)) (List.map fst tbl) = true ->
  unknown_marker keys m = true ->
  replace_ph tbl (pre +:+ m +:+ post) =
  replace_ph tbl pre +:+ m +:+ replace_ph tbl post.
Proof.
  intros Hsep Htbl Hm. revert pre post.
  induction tbl as [|[k v] tbl IH]; intros pre post; [reflexivity|].
  cbn [List.map forallb fst] in Htbl. apply andb_true_iff in Htbl as [Hk Htbl].
  apply bool_decide_eq_true in Hk. cbn [replace_ph].
  rewrite (replace_frame keys) by assumption. apply IH. exact Htbl.
Qed.

Lemma table_ok keys (tbl : list (string * string)) :
  forallb (fun k => bool_decide (k ∈ keys)) (List.map fst tbl) = true ->
  forallb (inert keys) (List.map snd tbl) = true ->
  forallb (fun kv => bool_decide (fst kv ∈ keys) && inert keys (snd kv)) tbl = true.
Proof.
  induction tbl as [|[k v] tbl IH]; [reflexivity|]. cbn [List.map forallb fst snd].
  intros [Hk Hks]%andb_true_iff [Hv Hvs]%andb_true_iff.
  rewrite Hk, Hv, (IH Hks Hvs). reflexivity.
Qed.

Lemma substitute_same_map tbl1 tbl2 segs :
  (list_to_map tbl1 : gmap string string) = list_to_map tbl2 ->
  substitute tbl1 segs = substitute tbl2 segs.
Proof.
  intros Hm. unfold substitute. f_equal. apply List.map_ext.
  intros [t|k]; cbn [substitute_segment]; [reflexivity|]. rewrite Hm. reflexivity.
Qed.

Lemma placeholder_keys_separated : separated placeholder_keys = true.
Proof. vm_compute. reflexivity. Qed.

Lemma replacements_keys h version username vd :
  List.map fst (replacements h version username vd) = placeholder_keys.
Proof. reflexivity. Qed.

(** C5, counterexample: with the user name [${version_name}] the token
    [${auth_player_name}] ends as the version, because the text inserted
    for the first key is replaced again by the second; a single pass
    leaves [${version_name}], and so does the same loop run over the
    table in the opposite order. *)
Lemma replace_ph_rescans_cex :
  let h := posix_host "Linux" true in
  let tbl := replacements h "1.21" "${version_name}" sample_version in
  replace_ph tbl "${auth_player_name}" = "1.21"
  /\ spec_substitute tbl "${auth_player_name}" = "${version_name}"
  /\ replace_ph (List.rev tbl) "${auth_player_name}" = "${version_name}"
  /\ replace_ph tbl "${auth_player_name}" <> replace_ph (List.rev tbl) "${auth_player_name}".
Proof. vm_compute. repeat split; congruence. Qed.

Lemma replace_ph_app before after a :
  replace_ph (before ++ after) a = replace_ph after (replace_ph before a).
Proof.
  revert a. induction before as [|[k v] before IH]; intros a; [reflexivity|].
  cbn [app replace_ph]. apply IH.
Qed.

Lemma replace_ph_fold tbl a :
  replace_ph tbl a = fold_left (fun acc kv => PyStr.replace (fst kv) (snd kv) acc) tbl a.
Proof.
  revert a. induction tbl as [|[k v] tbl IH]; intros a; [reflexivity|].
  cbn [replace_ph fold_left fst snd]. apply IH.
Qed.

Lemma replace_nil k v : k <> "" -> PyStr.replace k v "" = "".
Proof. destruct k; [congruence | reflexivity]. Qed.

Lemma replace_ph_other_keys keys before k :
  separated keys = true -> k ∈ keys ->
  Forall (fun kv => fst kv ∈ keys /\ fst kv <> k) before ->
  replace_ph before k = k.
Proof.
  intros Hsep Hk. induction 1 as [|[k' v'] before [Hk' Hne] _ IH]; [reflexivity|].
  cbn [replace_ph fst] in *.
  rewrite <- (string_app_nil_r k) at 1.
  rewrite (replace_other_key keys k' k v' "" Hsep Hk' Hk Hne).
  rewrite replace_nil, string_app_nil_r; [exact IH|].
  exact (proj1 (separated_key keys k' Hsep Hk')).
Qed.

(** C5, as amended: a token is rewritten by one [str.replace] per
    placeholder key, applied one after another in the order of the
    table, each replacing every occurrence of its key in the current
    text, so that the value put in for a key is itself rewritten by the
    keys that come later in the table.  An unknown marker such as
    [${foo}] is left as it is, whatever surrounds it, and a token in
    which no known key occurs comes back unchanged; both hold for every
    user name and version.  For a token made of known keys and of text
    from which no known key can start, and values of that kind, every
    known key is replaced by its value, the rest is kept, and any other
    order of the table entries gives the same result. *)
Theorem replace_ph_spec (h : Host) (version username : string) (vd : version_data)
    (segs : list segment) (before after other : list (string * string))
    (k v pre marker post a : string) :
  let tbl := replacements h version username vd in
  replace_ph tbl a = fold_left (fun acc kv => PyStr.replace (fst kv) (snd kv) acc) tbl a
  /\ (tbl = before ++ (k, v) :: after ->
      replace_ph tbl a = replace_ph after (PyStr.replace k v (replace_ph before a))
      /\ replace_ph tbl k = replace_ph after v)
  /\ (unknown_marker placeholder_keys marker = true ->
      replace_ph tbl (pre +:+ marker +:+ post) =
        replace_ph tbl pre +:+ marker +:+ replace_ph tbl post)
  /\ (forallb (fun k => negb (PyStr.contains k a)) placeholder_keys = true ->
      replace_ph tbl a = a)
  /\ (forallb (inert placeholder_keys) (List.map snd tbl) = true ->
      forallb (segment_ok placeholder_keys) segs = true ->
      replace_ph tbl (render segs) = substitute tbl segs
      /\ (Permutation other tbl ->
          replace_ph other (render segs) = replace_ph tbl (render segs))).
Proof.
  intros tbl.
  assert (forallb (fun k => bool_decide (k ∈ placeholder_keys)) (List.map fst tbl) = true)
    as Hkeys by (vm_compute; reflexivity).
  assert (NoDup placeholder_keys) as Hnd
    by (apply (bool_decide_unpack _); vm_compute; exact I).
  split; [apply replace_ph_fold|]. split.
  { intros Htbl.
    assert (placeholder_keys = List.map fst before ++ k :: List.map fst after) as Hsplit.
    { rewrite <- (replacements_keys h version username vd). fold tbl.
      rewrite Htbl, List.map_app. reflexivity. }
    rewrite Htbl, !replace_ph_app. cbn [replace_ph]. split; [reflexivity|].
    rewrite Hsplit in Hnd. apply NoDup_app in Hnd as (_ & Hdisj & Hnd).
    apply NoDup_cons in Hnd as [_ _].
    assert (k ∈ placeholder_keys) as Hk by (rewrite Hsplit; set_solver).
    rewrite (replace_ph_other_keys placeholder_keys before k
               placeholder_keys_separated Hk).
    - rewrite <- (string_app_nil_r k) at 2.
      pose proof (proj1 (separated_key placeholder_keys k
                           placeholder_keys_separated Hk)) as Hk0.
      rewrite replace_key_here, replace_nil, string_app_nil_r by exact Hk0.
      reflexivity.
    - apply Forall_forall. intros [k' v'] Hin. cbn [fst]. split.
      + rewrite Hsplit. apply elem_of_app. left.
        apply (list_elem_of_fmap_2 fst) in Hin. exact Hin.
      + intros ->. apply (Hdisj k); [|constructor].
        apply (list_elem_of_fmap_2 fst) in Hin. exact Hin. }
  split; [intros Hmarker; apply (replace_ph_frame placeholder_keys);
          auto using placeholder_keys_separated|].
  split; [intros Ha; apply replace_ph_absent; exact Ha|].
  intros Hvalues Hsegs.
  pose proof (table_ok _ _ Hkeys Hvalues) as Htbl.
  assert (replace_ph tbl (render segs) = substitute tbl segs) as Hmain
    by (apply (replace_ph_render placeholder_keys);
        auto using placeholder_keys_separated).
  split; [exact Hmain|]. intros Hother.
  rewrite Hmain. rewrite (replace_ph_render placeholder_keys);
    auto using placeholder_keys_separated.
  - apply substitute_same_map, list_to_map_proper; [|exact Hother].
    rewrite Hother. exact Hnd.
  - rewrite forallb_forall in *. intros kv Hin. apply Htbl.
    apply (Permutation_in _ Hother Hin).
Qed.

Lemma replace_ph_spec_witness :
  let h := posix_host "Linux" true in
  let chained := replacements h "1.21" "${version_name}" sample_version in
  let tbl := replacements h "1.21" "Steve" sample_version in
  replace_ph chained "${auth_player_name}" = replace_ph (List.tl chained) "${version_name}"
  /\ replace_ph chained "--name=${auth_player_name},${foo},${version_name}" =
       replace_ph chained "--name=${auth_player_name}," +:+ "${foo}"
       +:+ replace_ph chained ",${version_name}"
  /\ replace_ph chained "--demo" = "--demo"
  /\ replace_ph tbl "--username ${auth_player_name} ${foo}" = "--username Steve ${foo}"
  /\ replace_ph (List.rev tbl) "--username ${auth_player_name} ${foo}" =
     replace_ph tbl "--username ${auth_player_name} ${foo}".
Proof.
  intros h chained tbl.
  destruct (replace_ph_spec h "1.21" "${version_name}" sample_version
              [] [] (List.tl chained) []
              "${auth_player_name}" "${version_name}"
              "--name=${auth_player_name}," "${foo}" ",${version_name}" "--demo")
    as (_ & Hchain & Hframe & Hnone & _).
  destruct (replace_ph_spec h "1.21" "Steve" sample_version
              [Lit "--username "; Key "${auth_player_name}"; Lit " ${foo}"]
              [] [] (List.rev tbl) "" "" "" "" "" "")
    as (_ & _ & _ & _ & Hsub).
  destruct (Hsub eq_refl eq_refl) as [Hmain Hperm].
  split; [exact (proj2 (Hchain eq_refl))|].
  split; [exact (Hframe eq_refl)|].
  split; [exact (Hnone eq_refl)|].
  split; [exact Hmain|].
  apply Hperm. symmetry. apply Permutation_rev.
Defined.

Example replace_ph_runs :
  let tbl := replacements (posix_host "Linux" true) "1.21" "Steve" sample_version in
  replace_ph tbl "--username ${auth_player_name}" = "--username Steve"
  /\ replace_ph tbl "${foo}" = "${foo}"
  /\ replace_ph tbl "--name=${auth_player_name},${foo},${version_name}" =
       "--name=Steve,${foo},1.21"
  /\ replace_ph tbl "${assets_root}/${assets_index_name}/${user_type}" =
       "/home/alex/.minecraft/assets/17/legacy".
Proof. vm_compute. repeat split; reflexivity. Qed.

(** ** Offline identity *)

Lemma be_bytes_length n x : List.length (Sha1.be_bytes n x) = n.
Proof. induction n as [|n IH]; cbn [Sha1.be_bytes List.length]; congruence. Qed.

Lemma check_uuid_hex_run g rest pos :
  all_chars is_lower_hex g = true ->
  forallb (fun p => negb (is_hyphen_position p)) (seq pos (String.length g)) = true ->
  check_uuid pos (g +:+ rest) = check_uuid (pos + String.length g) rest.
Proof.
  revert pos. induction g as [|c g IH]; intros pos Hhex Hpos.
  - rewrite string_app_nil_l. cbn [String.length]. f_equal. lia.
  - cbn [all_chars] in Hhex. apply andb_true_iff in Hhex as [Hc Hg].
    cbn [String.length seq forallb] in Hpos.
    apply andb_true_iff in Hpos as [Hp Hrest]. apply negb_true_iff in Hp.
    rewrite string_app_cons. cbn [check_uuid String.length].
    rewrite Hp, Hc, (IH (S pos) Hg Hrest). cbn [andb]. f_equal. lia.
Qed.

Lemma hex_group bs n m :
  Forall (fun b => 0 <= b < 256) bs -> List.length bs = 16%nat ->
  (n + m <= 16)%nat ->
  all_chars is_lower_hex (Sha1.hex_of_bytes (firstn m (skipn n bs))) = true
  /\ String.length (Sha1.hex_of_bytes (firstn m (skipn n bs))) = (2 * m)%nat.
Proof.
  intros Hr Hl Hnm.
  destruct (hex_of_bytes_lower (firstn m (skipn n bs))) as [H1 H2].
  { apply Forall_take, Forall_drop, Hr. }
  split; [exact H1|]. rewrite H2, length_firstn, length_skipn. lia.
Qed.

Lemma uuid_of_bytes_format bs :
  Forall (fun b => 0 <= b < 256) bs -> List.length bs = 16%nat ->
  is_uuid_format (uuid_of_bytes bs) = true.
Proof.
  intros Hr Hl. unfold is_uuid_format, uuid_of_bytes.
  rewrite <- (firstn_all (skipn 10 bs)), length_skipn, Hl.
  change (firstn 4 bs) with (firstn 4 (skipn 0 bs)).
  destruct (hex_group bs 0 4 Hr Hl) as [Ha1 Ha2]; [lia|].
  destruct (hex_group bs 4 2 Hr Hl) as [Hb1 Hb2]; [lia|].
  destruct (hex_group bs 6 2 Hr Hl) as [Hc1 Hc2]; [lia|].
  destruct (hex_group bs 8 2 Hr Hl) as [Hd1 Hd2]; [lia|].
  destruct (hex_group bs 10 (16 - 10) Hr Hl) as [He1 He2]; [lia|].
  rewrite (check_uuid_hex_run _ _ 0 Ha1) by (rewrite Ha2; reflexivity).
  rewrite Ha2, string_app_cons, string_app_nil_l. cbn [check_uuid Nat.add Nat.mul].
  cbn [is_hyphen_position Nat.eqb orb Ascii.eqb Bool.eqb andb].
  rewrite (check_uuid_hex_run _ _ 9 Hb1) by (rewrite Hb2; reflexivity).
  rewrite Hb2, string_app_cons, string_app_nil_l. cbn [check_uuid Nat.add Nat.mul].
  cbn [is_hyphen_position Nat.eqb orb Ascii.eqb Bool.eqb andb].
  rewrite (check_uuid_hex_run _ _ 14 Hc1) by (rewrite Hc2; reflexivity).
  rewrite Hc2, string_app_cons, string_app_nil_l. cbn [check_uuid Nat.add Nat.mul].
  cbn [is_hyphen_position Nat.eqb orb Ascii.eqb Bool.eqb andb].
  rewrite (check_uuid_hex_run _ _ 19 Hd1) by (rewrite Hd2; reflexivity).
  rewrite Hd2, string_app_cons, string_app_nil_l. cbn [check_uuid Nat.add Nat.mul].
  cbn [is_hyphen_position Nat.eqb orb Ascii.eqb Bool.eqb andb].
  rewrite <- (string_app_nil_r (Sha1.hex_of_bytes _)).
  rewrite (check_uuid_hex_run _ _ 24 He1) by (rewrite He2; reflexivity).
  rewrite He2. reflexivity.
Qed.

(** C9, as the file behaves: [generate_offline_uuid] is no method of the
    class, so the call of line 421 returns no identity at all: it raises
    AttributeError, and so does [build_launch_command] there once the
    other missing method is supplied. *)
Theorem generate_offline_uuid_undefined (h : Host) (vd : version_data)
    (version username : string) (ram : Z) :
  call_method CatClient_methods "generate_offline_uuid"
    (generate_offline_uuid h username) =
    Raised (AttributeError "generate_offline_uuid")
  /\ build_launch_command_in h (CatClient_methods ++ ["is_java_installed"])
       (Some vd) version username ram =
     Raised (AttributeError "generate_offline_uuid").
Proof. split; reflexivity. Qed.

Example offline_uuid_run :
  derive_offline_uuid sample_scheme "Steve" = "1cc1131d-d8e4-1ae5-d64c-4afd4f9ba6c1".
Proof. vm_compute. reflexivity. Qed.

(** ** Concrete runs *)

Example launch_as_is_run :
  build_launch_command (posix_host "Darwin" false) (Some sample_version) "1.21" "Steve" 4 =
  Raised (AttributeError "is_java_installed").
Proof. reflexivity. Qed.

Example launch_macos_run :
  build_launch_command_in (posix_host "Darwin" false) completed_methods
    (Some sample_version) "1.21" "Steve" 4 =
  Returned
    [ "/home/alex/.catclient/java/jdk-21.0.5+11/bin/java"; "-Xmx4G";
      "-XstartOnFirstThread"; "-Dlauncher.opts=-Djava.library.path=/opt/natives"; "-cp";
      "/home/alex/.minecraft/versions/1.21/1.21.jar:/home/alex/.minecraft/libraries/com/a/a.jar:/home/alex/.minecraft/libraries/org/b/b.jar:/home/alex/.minecraft/libraries/com/a/a.jar";
      "net.minecraft.client.main.Main"; "--username"; "Steve"; "--version"; "1.21" ].
Proof. vm_compute. reflexivity. Qed.

Example launch_legacy_windows_run :
  build_launch_command_in (posix_host "Windows" false) completed_methods
    (Some (VersionData (Some "x.Main") None None [] None
             (Some "--username ${auth_player_name} --uuid ${auth_uuid}  --assets ${assets_index_name}")
             None))
    "1.8" "Alex" 2 =
  Returned
    [ "/home/alex/.catclient/java/jdk-21.0.5+11/bin/java.exe"; "-Xmx2G";
      "-Djava.library.path=/home/alex/.minecraft/versions/1.8/natives"; "-cp";
      "/home/alex/.minecraft/versions/1.8/1.8.jar"; "x.Main";
      "--username"; "Alex"; "--uuid"; "2d4ff374-a970-3037-82c8-fae4a5bc9a47";
      "--assets"; "legacy" ].
Proof. vm_compute. reflexivity. Qed.

Example launch_unreadable_json_run :
  build_launch_command (posix_host "Linux" true) None "1.21" "Steve" 4 = Returned [].
Proof. reflexivity. Qed.

Example evaluate_rules_runs :
  evaluate_rules [] "linux" = true
  /\ evaluate_rules [Rule false "allow" None; Rule false "disallow" (Some (Some "osx"))] "osx" = false
  /\ evaluate_rules [Rule false "allow" None; Rule false "disallow" (Some (Some "osx"))] "linux" = true
  /\ evaluate_rules [Rule false "allow" (Some None)] "linux" = false
  /\ evaluate_rules [Rule true "allow" None] "linux" = false.
Proof. repeat split; reflexivity. Qed.

Example replace_ex1 : PyStr.replace "ab" "X" "cababa" = "cXXa".
Proof. reflexivity. Qed.
Example replace_ex2 : PyStr.replace "aa" "b" "aaaaa" = "bba".
Proof. reflexivity. Qed.
Example replace_ex3 : PyStr.replace "" "-" "abc" = "-a-b-c-".
Proof. reflexivity. Qed.
Example split_ex1 :
  PyStr.split "  --username ${auth_player_name}   --version  x " =
  ["--username"; "${auth_player_name}"; "--version"; "x"].
Proof. reflexivity. Qed.
Example join_ex1 : PyStr.join ":" ["a"; "b"; "c"] = "a:b:c".
Proof. reflexivity. Qed.
Example of_int_ex1 : PyStr.of_int 16 = "16" /\ PyStr.of_int (-3) = "-3" /\ PyStr.of_int 0 = "0".
Proof. repeat split; reflexivity. Qed.
Example sha1_empty :
  Sha1.hexdigest [] = "da39a3ee5e6b4b0d3255bfef95601890afd80709".
Proof. vm_compute. reflexivity. Qed.
Example sha1_abc :
  Sha1.hexdigest (list_byte_of_string "abc") = "a9993e364706816aba3e25717850c26c9cd0d89d".
Proof. vm_compute. reflexivity. Qed.
Example sha1_two_blocks :
  Sha1.hexdigest
    (list_byte_of_string "abcdbcdecdefdefgefghfghighijhijkijkljklmklmnlmnomnopnopq") =
  "84983e441c3bd26ebaae4aa1f95129e5e54670f1".
Proof. vm_compute. reflexivity. Qed.

(** * More of the launcher *)


Lemma loop_last_verdict rs p :
  evaluate_rules_loop rs p false =
  match omap (rule_verdict p) (List.rev rs) with
  | b :: _ => b
  | [] => false
  end.
Proof.
  induction rs as [|r rs IH] using rev_ind; [reflexivity|].
  rewrite evaluate_rules_loop_snoc, rev_unit. cbn [omap list_omap].
  unfold verdict_step. destruct (rule_verdict p r); [reflexivity|exact IH].
Qed.

(** X1: the last rule that has a verdict decides.  Reading the list from
    its end, the first rule that applies on the platform (an Allow rule
    without os constraint or naming the platform, a Disallow rule naming
    it, feature-gated rules apart) gives the result; when no rule
    applies the result is true for the empty list and false otherwise. *)
Theorem evaluate_rules_last_verdict (rs : list rule) (p : string) :
  evaluate_rules rs p =
  match omap (rule_verdict p) (List.rev rs) with
  | b :: _ => b
  | [] => bool_decide (rs = [])
  end.
Proof.
  destruct rs as [|r rs]; [reflexivity|].
  change (evaluate_rules (r :: rs) p) with (evaluate_rules_loop (r :: rs) p false).
  rewrite loop_last_verdict.
  destruct (omap _ _); [|reflexivity].
  symmetry. apply bool_decide_eq_false. discriminate.
Qed.

Lemma loop_unnamed rs p b :
  forallb (fun r => negb (os_name_is r p)) rs = true ->
  evaluate_rules_loop rs p b = b || existsb unconditional_allow rs.
Proof.
  revert b. induction rs as [|r rs IH]; intros b H; [symmetry; apply orb_false_r|].
  cbn [forallb] in H. apply andb_true_iff in H as [Hr Hrs].
  apply negb_true_iff in Hr. cbn [evaluate_rules_loop existsb].
  unfold unconditional_allow at 1. rewrite Hr, andb_false_r, orb_false_r.
  destruct (r_features r); cbn [negb andb orb]; [apply IH, Hrs|].
  destruct (String.eqb (r_action r) "allow"); cbn [andb orb].
  - destruct (has_os r); cbn [negb orb]; rewrite IH by exact Hrs;
      [reflexivity | destruct b; reflexivity].
  - destruct (String.eqb (r_action r) "disallow"); apply IH, Hrs.
Qed.

(** X2: on a platform that no rule of a non-empty list names, the list is
    accepted exactly when it holds an Allow rule that has neither a
    feature constraint nor an os constraint. *)
Theorem evaluate_rules_unnamed_platform (r : rule) (rs : list rule) (p : string)
    (Hnone : forallb (fun x => negb (os_name_is x p)) (r :: rs) = true) :
  evaluate_rules (r :: rs) p = existsb unconditional_allow (r :: rs).
Proof.
  change (evaluate_rules (r :: rs) p) with (evaluate_rules_loop (r :: rs) p false).
  rewrite loop_unnamed by exact Hnone. reflexivity.
Qed.

Lemma evaluate_rules_unnamed_platform_witness :
  evaluate_rules
    [ Rule false "allow" (Some (Some "windows")); Rule false "allow" None;
      Rule false "disallow" (Some (Some "osx")) ] "linux" = true.
Proof.
  exact (evaluate_rules_unnamed_platform
           (Rule false "allow" (Some (Some "windows")))
           [Rule false "allow" None; Rule false "disallow" (Some (Some "osx"))]
           "linux" eq_refl).
Defined.

Lemma evaluate_rules_nonempty rs p :
  rs <> [] -> evaluate_rules rs p = evaluate_rules_loop rs p false.
Proof. destruct rs; [congruence | reflexivity]. Qed.

(** X3: a Disallow rule that does not name the platform, in particular
    one that has no os constraint at all, can be dropped from a list that
    has other rules without changing the result. *)
Theorem evaluate_rules_disallow_elsewhere (l1 l2 : list rule) (r : rule) (p : string)
    (Haction : r_action r = "disallow")
    (Hos : os_name_is r p = false)
    (Hrest : l1 ++ l2 <> []) :
  evaluate_rules (l1 ++ r :: l2) p = evaluate_rules (l1 ++ l2) p.
Proof.
  rewrite !evaluate_rules_nonempty by (try exact Hrest; destruct l1; discriminate).
  rewrite !evaluate_rules_loop_fold, !fold_left_app. cbn [fold_left].
  f_equal. generalize (fold_left (verdict_step p) l1 false). intros b.
  unfold verdict_step, rule_verdict.
  rewrite Haction, Hos. cbn. destruct (r_features r); reflexivity.
Qed.

Lemma evaluate_rules_disallow_elsewhere_witness :
  evaluate_rules [Rule false "allow" None; Rule false "disallow" None] "linux" =
  evaluate_rules [Rule false "allow" None] "linux".
Proof.
  apply (evaluate_rules_disallow_elsewhere [Rule false "allow" None] []
           (Rule false "disallow" None) "linux");
    [reflexivity | reflexivity | discriminate].
Defined.

Lemma extend_with_arguments_flat args os acc :
  extend_with_arguments args os acc = acc ++ flat_map (argument_values os) args.
Proof.
  revert acc. induction args as [|a args IH]; intros acc; cbn [extend_with_arguments flat_map].
  - symmetry. apply app_nil_r.
  - rewrite IH, app_assoc. f_equal.
    destruct a as [s|rules [l|v]|]; cbn [argument_values];
      try destruct (evaluate_rules rules os); rewrite ?app_nil_r; reflexivity.
Qed.

(** X4: the two argument loops emit, in the order of the document, each
    string entry and the value or values of each conditional entry whose
    rules accept the platform, other entries giving nothing; the JVM flags
    follow the executable and the -Xmx flag; the game arguments come from
    ["arguments"]["game"] when that key exists and from the words of
    ["minecraftArguments"] otherwise; and a loop over a concatenation is
    the two loops one after the other. *)
Theorem arguments_in_order (h : Host) (ram : Z) (vd : version_data) :
  let os := current_os h in
  cmd_after_jvm h ram vd =
    [java_exe h; "-Xmx" +:+ PyStr.of_int ram +:+ "G"]
    ++ flat_map (argument_values os)
         (match vd_arguments vd with Some a => a_jvm a | None => [] end)
  /\ game_args_of h vd =
       match vd_arguments vd ≫= a_game with
       | Some game => flat_map (argument_values os) game
       | None =>
           match vd_minecraftArguments vd with
           | Some blob => PyStr.split blob
           | None => []
           end
       end
  /\ forall a1 a2 acc,
       extend_with_arguments (a1 ++ a2) os acc =
       extend_with_arguments a2 os (extend_with_arguments a1 os acc).
Proof.
  intros os. unfold cmd_after_jvm, game_args_of. split; [|split].
  - destruct (vd_arguments vd) as [a|]; [|reflexivity].
    apply extend_with_arguments_flat.
  - destruct (vd_arguments vd) as [[jvm [game|]]|]; cbn; [|reflexivity..].
    apply extend_with_arguments_flat.
  - intros a1 a2 acc. rewrite !extend_with_arguments_flat, flat_map_app, app_assoc.
    reflexivity.
Qed.

Lemma loop_all_features rules os b :
  forallb r_features rules = true -> evaluate_rules_loop rules os b = b.
Proof.
  induction rules as [|r rules IH]; [reflexivity|]. cbn [forallb evaluate_rules_loop].
  intros [-> Hrs]%andb_true_iff. exact (IH Hrs).
Qed.

(** X5: a conditional argument all of whose rules carry a feature
    constraint is rejected on every platform, so it contributes nothing
    to the arguments, wherever it stands in the list. *)
Theorem feature_gated_argument_dropped (pre post : list argument)
    (rules : list rule) (value : arg_value) (os : string) (acc : list string)
    (Hne : rules <> []) (Hfeat : forallb r_features rules = true) :
  evaluate_rules rules os = false
  /\ extend_with_arguments (pre ++ ArgRules rules value :: post) os acc =
     extend_with_arguments (pre ++ post) os acc.
Proof.
  assert (evaluate_rules rules os = false) as Hev.
  { destruct rules as [|r rules]; [congruence|].
    apply (loop_all_features (r :: rules) os false Hfeat). }
  split; [exact Hev|].
  rewrite (extend_with_arguments_acc (pre ++ _)), (extend_with_arguments_acc (pre ++ post)).
  f_equal. induction pre as [|a pre IH]; cbn [app extend_with_arguments].
  - rewrite Hev. reflexivity.
  - rewrite (extend_with_arguments_acc (pre ++ _)),
      (extend_with_arguments_acc (pre ++ post)), IH. reflexivity.
Qed.

Lemma feature_gated_argument_dropped_witness :
  evaluate_rules [Rule true "allow" None] "linux" = false
  /\ extend_with_arguments
       ([ArgStr "--username"]
        ++ ArgRules [Rule true "allow" None] (ValStr "--demo") :: [ArgStr "--version"])
       "linux" [] =
     extend_with_arguments ([ArgStr "--username"] ++ [ArgStr "--version"]) "linux" [].
Proof.
  apply (feature_gated_argument_dropped [ArgStr "--username"] [ArgStr "--version"]
           [Rule true "allow" None] (ValStr "--demo") "linux" []);
    [discriminate | reflexivity].
Defined.

Lemma all_chars_rev_app f a b :
  all_chars f (String.rev_app a b) = all_chars f a && all_chars f b.
Proof.
  revert b. induction a as [|c a IH]; intros b; [reflexivity|].
  cbn [String.rev_app all_chars]. rewrite IH. cbn [all_chars].
  destruct (f c), (all_chars f a); reflexivity.
Qed.

Lemma rev_app_nonempty a b : b <> "" -> String.rev_app a b <> "".
Proof.
  revert b. induction a as [|c a IH]; intros b Hb; [exact Hb|].
  cbn [String.rev_app]. apply IH. discriminate.
Qed.

Lemma rev_app_rev_app a b c :
  String.rev_app (String.rev_app a b) c = String.rev_app b (a +:+ c).
Proof.
  revert b c. induction a as [|x a IH]; intros b c; [reflexivity|].
  cbn [String.rev_app]. rewrite IH. reflexivity.
Qed.

Lemma string_rev_involutive t : String.rev (String.rev t) = t.
Proof. unfold String.rev. rewrite rev_app_rev_app. apply string_app_nil_r. Qed.

Lemma is_word_rev rw : is_word rw = true -> is_word (String.rev rw) = true.
Proof.
  unfold is_word, String.rev. intros [Hne Hc]%andb_true_iff.
  rewrite all_chars_rev_app, Hc. cbn [all_chars andb]. rewrite andb_true_r.
  apply negb_true_iff, String.eqb_neq. apply negb_true_iff, String.eqb_neq in Hne.
  destruct rw as [|c rw]; [congruence|]. cbn [String.rev_app].
  apply rev_app_nonempty. discriminate.
Qed.

Lemma split_go_words s cur :
  match cur with Some rw => is_word rw | None => true end = true ->
  forallb is_word (PyStr.split_go cur s) = true.
Proof.
  revert cur. induction s as [|c s IH]; intros cur Hcur; cbn [PyStr.split_go].
  - destruct cur as [rw|]; cbn; [rewrite (is_word_rev _ Hcur)|]; reflexivity.
  - destruct (PyStr.isspace c) eqn:Hc.
    + rewrite forallb_app, (IH None) by reflexivity. rewrite andb_true_r.
      destruct cur as [rw|]; cbn; [rewrite (is_word_rev _ Hcur)|]; reflexivity.
    + apply IH. unfold is_word, not_space at 1. cbn [all_chars]. fold not_space.
      unfold not_space at 1. rewrite Hc. cbn.
      destruct cur as [rw|]; cbn; [|reflexivity].
      unfold is_word in Hcur. apply andb_true_iff in Hcur as [_ Hrw]. exact Hrw.
Qed.

Lemma split_go_read t rest acc :
  all_chars not_space t = true ->
  PyStr.split_go (Some acc) (t +:+ rest) =
  PyStr.split_go (Some (String.rev_app t acc)) rest.
Proof.
  revert acc. induction t as [|c t IH]; intros acc Ht; [reflexivity|].
  cbn [all_chars] in Ht. apply andb_true_iff in Ht as [Hc Ht].
  apply negb_true_iff in Hc. rewrite string_app_cons.
  cbn [PyStr.split_go String.rev_app]. rewrite Hc. apply IH. exact Ht.
Qed.

Lemma split_go_start t rest :
  is_word t = true ->
  PyStr.split_go None (t +:+ rest) = PyStr.split_go (Some (String.rev t)) rest.
Proof.
  unfold is_word. intros [Hne Ht]%andb_true_iff. destruct t as [|c t]; [discriminate|].
  cbn [all_chars] in Ht. apply andb_true_iff in Ht as [Hc Ht].
  apply negb_true_iff in Hc. rewrite string_app_cons.
  cbn [PyStr.split_go]. rewrite Hc. cbn [default].
  rewrite split_go_read by exact Ht. reflexivity.
Qed.

Lemma split_join tokens :
  forallb is_word tokens = true -> PyStr.split (PyStr.join " " tokens) = tokens.
Proof.
  unfold PyStr.split. induction tokens as [|t ts IH]; [reflexivity|].
  cbn [forallb]. intros [Ht Hts]%andb_true_iff.
  destruct ts as [|t' ts].
  - cbn [PyStr.join]. rewrite <- (string_app_nil_r t) at 1.
    rewrite split_go_start by exact Ht. cbn.
    rewrite string_rev_involutive. reflexivity.
  - change (PyStr.join " " (t :: t' :: ts)) with (t +:+ " " +:+ PyStr.join " " (t' :: ts)).
    rewrite split_go_start by exact Ht.
    change (" " +:+ PyStr.join " " (t' :: ts))
      with (String " "%char (PyStr.join " " (t' :: ts))).
    cbn [PyStr.split_go]. change (PyStr.isspace " ") with true. cbn iota.
    cbn [fmap option_fmap option_map option_list app].
    rewrite string_rev_involutive, (IH Hts). reflexivity.
Qed.

(** X6: when the document has no ["arguments"]["game"], the game
    arguments are the words of ["minecraftArguments"]: none is empty,
    none holds a whitespace character, and a blob made of words joined by
    single spaces gives back exactly those words. *)
Theorem legacy_arguments_split (h : Host) (vd : version_data) (blob : string)
    (Hgame : vd_arguments vd ≫= a_game = None)
    (Hblob : vd_minecraftArguments vd = Some blob) :
  game_args_of h vd = PyStr.split blob
  /\ forallb is_word (game_args_of h vd) = true
  /\ forall tokens,
       forallb is_word tokens = true -> blob = PyStr.join " " tokens ->
       game_args_of h vd = tokens.
Proof.
  assert (game_args_of h vd = PyStr.split blob) as Hsplit.
  { unfold game_args_of. rewrite Hblob.
    destruct (vd_arguments vd) as [[jvm [game|]]|]; [discriminate|reflexivity..]. }
  rewrite Hsplit. split; [reflexivity|]. split.
  - apply split_go_words. reflexivity.
  - intros tokens Hw ->. apply split_join, Hw.
Qed.

Lemma legacy_arguments_split_witness :
  game_args_of (posix_host "Linux" true)
    (VersionData None None None [] None
       (Some "--username ${auth_player_name} --version ${version_name}") None) =
  ["--username"; "${auth_player_name}"; "--version"; "${version_name}"].
Proof.
  destruct (legacy_arguments_split (posix_host "Linux" true)
              (VersionData None None None [] None
                 (Some "--username ${auth_player_name} --version ${version_name}") None)
              "--username ${auth_player_name} --version ${version_name}"
              eq_refl eq_refl) as (_ & _ & Hjoin).
  exact (Hjoin ["--username"; "${auth_player_name}"; "--version"; "${version_name}"]
           eq_refl eq_refl).
Defined.

Lemma natives_flag_contains h version :
  PyStr.contains "-Djava.library.path" (natives_flag h version) = true.
Proof. reflexivity. Qed.

(** X7: after the fixups of lines 399-403 some element of the command
    mentions -Djava.library.path, on osx the command holds
    -XstartOnFirstThread, the command it was given is a prefix of the
    result, and running the fixups again changes nothing. *)
Theorem jvm_fixups_idempotent (h : Host) (version : string) (cmd : list string) :
  let out := jvm_fixups h version cmd in
  jvm_fixups h version out = out
  /\ existsb (PyStr.contains "-Djava.library.path") out = true
  /\ (if String.eqb (current_os h) "osx"
      then bool_decide ("-XstartOnFirstThread" ∈ out) else true) = true
  /\ firstn (List.length cmd) out = cmd.
Proof.
  intros out.
  assert (existsb (PyStr.contains "-Djava.library.path") out = true) as Hlib.
  { subst out. unfold jvm_fixups.
    match goal with |- context [negb (existsb ?f ?l)] =>
      destruct (existsb f l) eqn:He end; cbn [negb]; [exact He|].
    rewrite existsb_app, He. cbn [existsb]. rewrite natives_flag_contains. reflexivity. }
  assert ((if String.eqb (current_os h) "osx"
           then bool_decide ("-XstartOnFirstThread" ∈ out) else true) = true) as Hx.
  { destruct (String.eqb (current_os h) "osx") eqn:Hos; [|reflexivity].
    apply bool_decide_eq_true. subst out. unfold jvm_fixups. rewrite Hos.
    destruct (bool_decide ("-XstartOnFirstThread" ∈ cmd)) eqn:Hm; cbn [negb andb].
    - apply bool_decide_eq_true in Hm. destruct (negb _); set_solver.
    - destruct (negb _); set_solver. }
  split; [|split; [exact Hlib|split; [exact Hx|]]].
  - unfold jvm_fixups at 1. fold out.
    destruct (String.eqb (current_os h) "osx"); cbn [andb].
    + rewrite Hx. cbn [negb]. rewrite Hlib. reflexivity.
    + rewrite Hlib. reflexivity.
  - subst out. unfold jvm_fixups.
    destruct (_ && _); destruct (negb _); rewrite <- ?app_assoc;
      rewrite ?firstn_app, ?Nat.sub_diag, ?firstn_all; cbn [firstn];
      rewrite ?app_nil_r; reflexivity.
Qed.

Lemma ensure_client_jar_frame net url sha1 jar w p :
  p <> jar ->
  files (ensure_client_jar net url sha1 jar w) !! p = files w !! p.
Proof.
  intros Hp. unfold ensure_client_jar.
  destruct (jar_is_valid _ _ _); [reflexivity|].
  destruct (get_bytes net url); [|reflexivity].
  destruct (default false _); cbn [files]; apply lookup_insert_ne; congruence.
Qed.

Lemma ensure_client_jar_logs net url sha1 jar w :
  exists calls shown,
    urlretrieve_calls (ensure_client_jar net url sha1 jar w) = urlretrieve_calls w ++ calls
    /\ dialogs (ensure_client_jar net url sha1 jar w) = dialogs w ++ shown
    /\ (List.length shown <= List.length calls <= 1)%nat.
Proof.
  unfold ensure_client_jar. destruct (jar_is_valid _ _ _).
  { exists [], []. rewrite !app_nil_r. cbn. repeat split; lia. }
  destruct (get_bytes net url).
  - destruct (default false _).
    + exists [url], []. rewrite app_nil_r. cbn. repeat split; lia.
    + exists [url], ["JAR checksum mismatch"]. cbn. repeat split; lia.
  - exists [url], []. rewrite app_nil_r. cbn. repeat split; lia.
Qed.

(** X8: a call of [download_version_files] changes no file other than
    the version document and the client jar, hands at most one URL to
    [urlretrieve], shows at most one dialog and only after a transfer,
    and keeps what was logged before. *)
Theorem download_version_files_frame (h : Host) (net : Net)
    (version_id version_url p : string) (w : world) :
  let w' := download_version_files h net version_id version_url w in
  (p = json_path_of h version_id \/ p = jar_path_of h version_id
   \/ files w' !! p = files w !! p)
  /\ exists calls shown,
       urlretrieve_calls w' = urlretrieve_calls w ++ calls
       /\ dialogs w' = dialogs w ++ shown
       /\ (List.length shown <= List.length calls <= 1)%nat.
Proof.
  intros w'. subst w'. unfold download_version_files.
  destruct (get_version_json net version_url) as [data|].
  2: { split; [auto|]. exists [], []. rewrite !app_nil_r. cbn. repeat split; lia. }
  destruct (vd_client data) as [cl|].
  - split.
    + destruct (decide (p = jar_path_of h version_id)) as [|Hjar]; [auto|].
      destruct (decide (p = json_path_of h version_id)) as [|Hjson]; [auto|].
      right; right. rewrite ensure_client_jar_frame by exact Hjar.
      cbn [files]. apply lookup_insert_ne. congruence.
    + apply (ensure_client_jar_logs net (cd_url cl) (cd_sha1 cl)
               (jar_path_of h version_id)
               (World (<[json_path_of h version_id := json_dump h data]> (files w))
                  (urlretrieve_calls w) (dialogs w))).
  - split.
    + destruct (decide (p = json_path_of h version_id)) as [|Hjson]; [auto|].
      right; right. cbn [files]. apply lookup_insert_ne. congruence.
    + exists [], []. rewrite !app_nil_r. cbn. repeat split; lia.
Qed.

(** X9: when the version document is served and the server delivers the
    jar bytes of the expected digest, after the call the jar on disk
    verifies, the version document on disk is the one served, and no
    dialog has been shown. *)
Theorem download_version_files_installs (h : Host) (net : Net)
    (version_id version_url : string) (data : version_data)
    (cl : client_download) (content : list byte) (w : world)
    (Hjson : get_version_json net version_url = Some data)
    (Hclient : vd_client data = Some cl)
    (Hpaths : json_path_of h version_id <> jar_path_of h version_id)
    (Hbytes : get_bytes net (cd_url cl) = Some content)
    (Hgood : Sha1.hexdigest content = cd_sha1 cl) :
  let w' := download_version_files h net version_id version_url w in
  verify_file (files w') (jar_path_of h version_id) (cd_sha1 cl) = Some true
  /\ files w' !! json_path_of h version_id = Some (json_dump h data)
  /\ dialogs w' = dialogs w.
Proof.
  intros w'. subst w'.
  assert (jar_is_valid (files (download_version_files h net version_id version_url w))
            (jar_path_of h version_id) (cd_sha1 cl) = true) as Hvalid.
  { rewrite (download_validity_after h net _ _ _ _ Hjson Hclient Hpaths).
    rewrite Hbytes, Hgood, String.eqb_refl.
    destruct (jar_is_valid _ _ _); reflexivity. }
  split; [|split].
  - unfold jar_is_valid in Hvalid.
    destruct (files _ !! jar_path_of h version_id) eqn:Hf; [|discriminate].
    destruct (verify_file _ _ _) as [[|]|]; [reflexivity|discriminate..].
  - apply (download_json_written h net _ _ _ _ Hjson Hclient Hpaths).
  - destruct (jar_is_valid (files w) (jar_path_of h version_id) (cd_sha1 cl)) eqn:Hw.
    + apply (download_valid_before h net _ _ _ _ Hjson Hclient Hpaths w Hw).
    + destruct (download_invalid_before h net _ _ _ _ Hjson Hclient Hpaths w Hw)
        as (_ & _ & Hd).
      rewrite Hd, Hbytes, Hgood, String.eqb_refl. reflexivity.
Qed.

Lemma download_version_files_installs_witness :
  let h := posix_host "Linux" true in
  let w' := download_version_files h (sample_net []) "1.21" "u" empty_world in
  verify_file (files w') (jar_path_of h "1.21")
    "da39a3ee5e6b4b0d3255bfef95601890afd80709" = Some true
  /\ files w' !! json_path_of h "1.21" = Some (json_dump h sample_descriptor)
  /\ dialogs w' = dialogs empty_world.
Proof.
  intros h w'.
  apply (download_version_files_installs h (sample_net []) "1.21" "u"
           sample_descriptor
           (ClientDownload "https://example.org/client.jar"
              "da39a3ee5e6b4b0d3255bfef95601890afd80709") [] empty_world);
    [reflexivity | reflexivity | apply posix_paths_distinct | reflexivity
    | vm_compute; reflexivity].
Defined.

(** X10: after a successful load an id resolves to the URL of its last
    entry in the manifest, and to what it resolved to before when the
    manifest does not list it: every listed id resolves, and no id known
    before is forgotten. *)
Theorem load_version_manifest_versions (net : Net) (c : catalog) (m : manifest)
    (vid : string)
    (Hm : get_manifest net VERSION_MANIFEST_URL = Some m) :
  versions (load_version_manifest net c) !! vid =
    match last_url vid (m_versions m) with
    | Some u => Some u
    | None => versions c !! vid
    end
  /\ (is_Some (versions c !! vid) ->
      is_Some (versions (load_version_manifest net c) !! vid))
  /\ (forall v, In v (m_versions m) -> mv_id v = vid ->
      is_Some (versions (load_version_manifest net c) !! vid)).
Proof.
  rewrite (load_versions_lookup net c m vid Hm). split; [reflexivity|]. split.
  - destruct (last_url _ _); eauto.
  - intros v Hin Hid. destruct (listed_last_url _ _ _ Hin Hid) as [u ->]. eauto.
Qed.

Lemma load_version_manifest_versions_witness :
  let c := Catalog {[ "b1.7" := "https://example.org/b1.7.json" ]} initial_categories in
  versions (load_version_manifest scenario_net c) !! "1.20" =
    Some "https://example.org/1.20.json"
  /\ is_Some (versions (load_version_manifest scenario_net c) !! "b1.7").
Proof.
  intros c.
  destruct (load_version_manifest_versions scenario_net c scenario_manifest "1.20"
              eq_refl) as (H120 & _ & _).
  destruct (load_version_manifest_versions scenario_net c scenario_manifest "b1.7"
              eq_refl) as (_ & Hkept & _).
  split; [exact H120|]. apply Hkept. exists "https://example.org/b1.7.json".
  reflexivity.
Defined.

(** X11: loading the manifest a second time, the network answering the
    same, changes nothing. *)
Theorem load_version_manifest_idempotent (net : Net) (c : catalog) :
  load_version_manifest net (load_version_manifest net c) = load_version_manifest net c.
Proof.
  destruct (get_manifest net VERSION_MANIFEST_URL) as [m|] eqn:Hm.
  2: { unfold load_version_manifest. rewrite Hm. reflexivity. }
  assert (forall x y : catalog,
             versions x = versions y -> version_categories x = version_categories y ->
             x = y) as Hext by (intros [] [] ; cbn; congruence).
  apply Hext; apply map_eq; intros k.
  - rewrite !(load_versions_lookup net _ m k Hm).
    destruct (last_url k (m_versions m)); reflexivity.
  - rewrite !(load_categories net _ m k Hm).
    destruct (version_categories c !! k); reflexivity.
Qed.



Lemma build_launch_command_raises h vd version username ram :
  build_launch_command h (Some vd) version username ram =
  Raised (AttributeError "is_java_installed").
Proof. reflexivity. Qed.

Lemma download_and_launch_enters h net json_load known version username ram s url vd :
  version <> "" -> known !! version = Some url -> url <> "" ->
  files (download_version_files h net version url (s_world s))
    !! json_path_of h version ≫= json_load = Some vd ->
  download_and_launch h net json_load known version username ram s =
  LaunchRun
    (Session (download_version_files h net version url (s_world s)) (s_launched s))
    (Some (AttributeError "is_java_installed")).
Proof.
  intros Hv Hk Hu Hread. unfold download_and_launch.
  apply String.eqb_neq in Hv, Hu. rewrite Hv, Hk, Hu.
  unfold build_launch_command_from_disk. rewrite Hread.
  rewrite build_launch_command_raises. reflexivity.
Qed.

(** X13: a call of [download_and_launch] never starts a process.  It
    ends either with AttributeError, raised where [build_launch_command]
    calls [is_java_installed], or normally after one of the three error
    dialogs of lines 316, 320 and 363. *)
Theorem download_and_launch_never_launches (h : Host) (net : Net)
    (json_load : list byte -> option version_data) (known : gmap string string)
    (version username : string) (ram : Z) (s : session) :
  let r := download_and_launch h net json_load known version username ram s in
  s_launched (run_session r) = s_launched s
  /\ (run_raised r = Some (AttributeError "is_java_installed")
      \/ run_raised r = None
         /\ exists msg,
              In msg ["Select a version."; "Version URL missing.";
                      "Cannot read version json."]
              /\ exists before,
                   dialogs (s_world (run_session r)) = before ++ [msg]).
Proof.
  intros r. subst r. unfold download_and_launch.
  destruct (String.eqb version "").
  { split; [reflexivity|]. right. split; [reflexivity|].
    exists "Select a version.". split; [cbn; auto|]. eexists. reflexivity. }
  destruct (known !! version) as [url|].
  2: { split; [reflexivity|]. right. split; [reflexivity|].
       exists "Version URL missing.". split; [cbn; auto|]. eexists. reflexivity. }
  destruct (String.eqb url "").
  { split; [reflexivity|]. right. split; [reflexivity|].
    exists "Version URL missing.". split; [cbn; auto|]. eexists. reflexivity. }
  unfold build_launch_command_from_disk.
  destruct (files _ !! json_path_of h version ≫= json_load) as [vd|].
  - rewrite build_launch_command_raises. split; [reflexivity|]. left. reflexivity.
  - split; [reflexivity|]. right. split; [reflexivity|].
    exists "Cannot read version json.". split; [cbn; auto|]. eexists. reflexivity.
Qed.


(** X14: a checksum mismatch does not stop [download_and_launch].  When
    the jar delivered has another digest than the expected one, the
    mismatch dialog is shown, the bytes delivered stay at the jar path,
    and the call goes on into [build_launch_command], where it ends with
    AttributeError; no process is started. *)
Theorem download_and_launch_after_mismatch (h : Host) (net : Net)
    (json_load : list byte -> option version_data) (known : gmap string string)
    (version username url : string) (ram : Z) (s : session)
    (data : version_data) (cl : client_download) (bad : list byte)
    (Hversion : version <> "") (Hknown : known !! version = Some url)
    (Hurl : url <> "")
    (Hjson : get_version_json net url = Some data)
    (Hclient : vd_client data = Some cl)
    (Hpaths : json_path_of h version <> jar_path_of h version)
    (Hcodec : json_load (json_dump h data) = Some data)
    (Hstale : jar_is_valid (files (s_world s)) (jar_path_of h version) (cd_sha1 cl) = false)
    (Hbytes : get_bytes net (cd_url cl) = Some bad)
    (Hbad : Sha1.hexdigest bad <> cd_sha1 cl) :
  let r := download_and_launch h net json_load known version username ram s in
  dialogs (s_world (run_session r)) = dialogs (s_world s) ++ ["JAR checksum mismatch"]
  /\ files (s_world (run_session r)) !! jar_path_of h version = Some bad
  /\ verify_file (files (s_world (run_session r))) (jar_path_of h version) (cd_sha1 cl)
       = Some false
  /\ run_raised r = Some (AttributeError "is_java_installed")
  /\ s_launched (run_session r) = s_launched s.
Proof.
  intros r. subst r.
  rewrite (download_and_launch_enters h net json_load known version username ram s url data)
    by (try assumption;
        rewrite (download_json_written h net _ _ _ _ Hjson Hclient Hpaths); exact Hcodec).
  cbn [run_session run_raised s_world s_launched].
  destruct (download_invalid_before h net _ _ _ _ Hjson Hclient Hpaths _ Hstale)
    as (_ & Hf & Hd).
  apply String.eqb_neq in Hbad. rewrite Hbytes in Hf, Hd. rewrite Hbad in Hd.
  split; [exact Hd|]. split; [exact Hf|]. split; [|split; reflexivity].
  unfold verify_file. rewrite Hf, Hbad. reflexivity.
Qed.

Lemma download_and_launch_after_mismatch_witness :
  let h := posix_host "Linux" true in
  let net := sample_net (list_byte_of_string "corrupt") in
  let r := download_and_launch h net sample_json_load {[ "1.21" := "u" ]}
             "1.21" "Steve" 4 (Session empty_world []) in
  dialogs (s_world (run_session r)) = ["JAR checksum mismatch"]
  /\ files (s_world (run_session r)) !! jar_path_of h "1.21" =
       Some (list_byte_of_string "corrupt")
  /\ verify_file (files (s_world (run_session r))) (jar_path_of h "1.21")
       "da39a3ee5e6b4b0d3255bfef95601890afd80709" = Some false
  /\ run_raised r = Some (AttributeError "is_java_installed")
  /\ s_launched (run_session r) = [].
Proof.
  intros h net r.
  apply (download_and_launch_after_mismatch h net sample_json_load
           {[ "1.21" := "u" ]} "1.21" "Steve" "u" 4 (Session empty_world [])
           sample_descriptor
           (ClientDownload "https://example.org/client.jar"
              "da39a3ee5e6b4b0d3255bfef95601890afd80709")
           (list_byte_of_string "corrupt"));
    [discriminate | reflexivity | discriminate | reflexivity | reflexivity
    | apply posix_paths_distinct | reflexivity | reflexivity | reflexivity
    | vm_compute; discriminate].
Defined.


(** X15: with a server that delivers the expected jar, the first of two
    calls of [download_and_launch] leaves a jar that verifies, the second
    transfers nothing and changes no file, neither shows a dialog, and
    both end with AttributeError without starting a process. *)
Theorem download_and_launch_twice (h : Host) (net : Net)
    (json_load : list byte -> option version_data) (known : gmap string string)
    (version username url : string) (ram : Z) (s : session)
    (data : version_data) (cl : client_download) (content : list byte)
    (Hversion : version <> "") (Hknown : known !! version = Some url)
    (Hurl : url <> "")
    (Hjson : get_version_json net url = Some data)
    (Hclient : vd_client data = Some cl)
    (Hpaths : json_path_of h version <> jar_path_of h version)
    (Hcodec : json_load (json_dump h data) = Some data)
    (Hbytes : get_bytes net (cd_url cl) = Some content)
    (Hgood : Sha1.hexdigest content = cd_sha1 cl) :
  let run := download_and_launch h net json_load known version username ram in
  let first := run s in
  let second := run (run_session first) in
  run_raised first = Some (AttributeError "is_java_installed")
  /\ run_raised second = Some (AttributeError "is_java_installed")
  /\ verify_file (files (s_world (run_session first))) (jar_path_of h version)
       (cd_sha1 cl) = Some true
  /\ urlretrieve_calls (s_world (run_session second)) =
       urlretrieve_calls (s_world (run_session first))
  /\ files (s_world (run_session second)) = files (s_world (run_session first))
  /\ dialogs (s_world (run_session second)) = dialogs (s_world s)
  /\ s_launched (run_session second) = s_launched s.
Proof.
  intros run first second. subst run first second.
  assert (forall s0, download_and_launch h net json_load known version username ram s0 =
                     LaunchRun
                       (Session (download_version_files h net version url (s_world s0))
                          (s_launched s0))
                       (Some (AttributeError "is_java_installed"))) as Hrun.
  { intros s0. apply (download_and_launch_enters _ _ _ _ _ _ _ _ _ data); try assumption.
    rewrite (download_json_written h net _ _ _ _ Hjson Hclient Hpaths). exact Hcodec. }
  rewrite !Hrun. cbn [run_session run_raised s_world s_launched].
  assert (forall w, jar_is_valid (files (download_version_files h net version url w))
                      (jar_path_of h version) (cd_sha1 cl) = true) as Hvalid.
  { intros w. rewrite (download_validity_after h net _ _ _ _ Hjson Hclient Hpaths).
    rewrite Hbytes, Hgood, String.eqb_refl. destruct (jar_is_valid _ _ _); reflexivity. }
  assert (forall w, dialogs (download_version_files h net version url w) = dialogs w) as Hquiet.
  { intros w. destruct (jar_is_valid (files w) (jar_path_of h version) (cd_sha1 cl)) eqn:Hw.
    - apply (download_valid_before h net _ _ _ _ Hjson Hclient Hpaths w Hw).
    - destruct (download_invalid_before h net _ _ _ _ Hjson Hclient Hpaths w Hw)
        as (_ & _ & Hd).
      rewrite Hd, Hbytes, Hgood, String.eqb_refl. reflexivity. }
  destruct (download_valid_before h net _ _ _ _ Hjson Hclient Hpaths _ (Hvalid (s_world s)))
    as (Hcalls & _ & Hfiles).
  split; [reflexivity|]. split; [reflexivity|]. split.
  { specialize (Hvalid (s_world s)). unfold jar_is_valid in Hvalid.
    destruct (files _ !! jar_path_of h version); [|discriminate].
    destruct (verify_file _ _ _) as [[|]|]; [reflexivity|discriminate..]. }
  split; [exact Hcalls|]. split.
  { rewrite Hfiles. apply insert_id.
    apply (download_json_written h net _ _ _ _ Hjson Hclient Hpaths). }
  split; [rewrite !Hquiet; reflexivity | reflexivity].
Qed.

Lemma download_and_launch_twice_witness :
  let h := posix_host "Linux" true in
  let run := download_and_launch h (sample_net []) sample_json_load
               {[ "1.21" := "u" ]} "1.21" "Steve" 4 in
  let first := run (Session empty_world []) in
  let second := run (run_session first) in
  run_raised first = Some (AttributeError "is_java_installed")
  /\ run_raised second = Some (AttributeError "is_java_installed")
  /\ verify_file (files (s_world (run_session first))) (jar_path_of h "1.21")
       "da39a3ee5e6b4b0d3255bfef95601890afd80709" = Some true
  /\ urlretrieve_calls (s_world (run_session second)) =
       urlretrieve_calls (s_world (run_session first))
  /\ files (s_world (run_session second)) = files (s_world (run_session first))
  /\ dialogs (s_world (run_session second)) = []
  /\ s_launched (run_session second) = [].
Proof.
  intros h run first second.
  apply (download_and_launch_twice h (sample_net []) sample_json_load
           {[ "1.21" := "u" ]} "1.21" "Steve" "u" 4 (Session empty_world [])
           sample_descriptor
           (ClientDownload "https://example.org/client.jar"
              "da39a3ee5e6b4b0d3255bfef95601890afd80709") []);
    [discriminate | reflexivity | discriminate | reflexivity | reflexivity
    | apply posix_paths_distinct | reflexivity | reflexivity
    | vm_compute; reflexivity].
Defined.


(** X16: when the version document cannot be fetched,
    [download_and_launch] downloads and verifies nothing and leaves the
    machine as it is: with a readable version document already on disk
    the call ends with AttributeError in [build_launch_command], and
    otherwise it shows "Cannot read version json." and returns; in
    neither case is a process started. *)
Theorem download_and_launch_offline (h : Host) (net : Net)
    (json_load : list byte -> option version_data) (known : gmap string string)
    (version username url : string) (ram : Z) (s : session)
    (Hversion : version <> "") (Hknown : known !! version = Some url)
    (Hurl : url <> "")
    (Hdown : get_version_json net url = None) :
  download_and_launch h net json_load known version username ram s =
  match files (s_world s) !! json_path_of h version ≫= json_load with
  | Some _ => LaunchRun s (Some (AttributeError "is_java_installed"))
  | None =>
      LaunchRun (Session (show_error "Cannot read version json." (s_world s))
                   (s_launched s)) None
  end.
Proof.
  assert (download_version_files h net version url (s_world s) = s_world s) as Hsame
    by (unfold download_version_files; rewrite Hdown; reflexivity).
  destruct (files (s_world s) !! json_path_of h version ≫= json_load) as [vd|] eqn:Hread.
  - rewrite (download_and_launch_enters h net json_load known version username ram s url vd)
      by (try assumption; rewrite Hsame; exact Hread).
    rewrite Hsame. destruct s; reflexivity.
  - unfold download_and_launch. apply String.eqb_neq in Hversion, Hurl.
    rewrite Hversion, Hknown, Hurl, Hsame. unfold build_launch_command_from_disk.
    rewrite Hread. reflexivity.
Qed.

Lemma download_and_launch_offline_witness :
  let h := posix_host "Linux" true in
  let stored := World {[ json_path_of h "1.21" := [] ]} [] [] in
  download_and_launch h offline_net sample_json_load {[ "1.21" := "u" ]}
    "1.21" "Steve" 4 (Session stored []) =
  LaunchRun (Session stored []) (Some (AttributeError "is_java_installed"))
  /\ download_and_launch h offline_net sample_json_load {[ "1.21" := "u" ]}
       "1.21" "Steve" 4 (Session empty_world []) =
     LaunchRun (Session (show_error "Cannot read version json." empty_world) []) None.
Proof.
  intros h stored. split.
  - exact (download_and_launch_offline h offline_net sample_json_load
             {[ "1.21" := "u" ]} "1.21" "Steve" "u" 4 (Session stored [])
             ltac:(discriminate) eq_refl ltac:(discriminate) eq_refl).
  - exact (download_and_launch_offline h offline_net sample_json_load
             {[ "1.21" := "u" ]} "1.21" "Steve" "u" 4 (Session empty_world [])
             ltac:(discriminate) eq_refl ltac:(discriminate) eq_refl).
Defined.

Section DictFacts.
Context {V : Type}.
Implicit Types (d : list (string * V)) (k : string) (v : V).

Lemma dict_get_set_eq k v d : PyDict.get k (PyDict.set k v d) = Some v.
Proof.
  induction d as [|[k' v'] d IH]; cbn [PyDict.set PyDict.get].
  - rewrite String.eqb_refl. reflexivity.
  - destruct (String.eqb k' k) eqn:Hk; cbn [PyDict.get]; rewrite Hk; [reflexivity|exact IH].
Qed.

Lemma dict_get_set_ne k k' v d :
  k <> k' -> PyDict.get k' (PyDict.set k v d) = PyDict.get k' d.
Proof.
  intros Hne. induction d as [|[x v'] d IH]; cbn [PyDict.set PyDict.get].
  - apply String.eqb_neq in Hne. rewrite Hne. reflexivity.
  - destruct (String.eqb_spec x k) as [->|Hx]; cbn [PyDict.get].
    + apply String.eqb_neq in Hne. rewrite Hne. reflexivity.
    + rewrite IH. reflexivity.
Qed.

Lemma dict_mem_cons k x v d :
  PyDict.mem k ((x, v) :: d) = String.eqb x k || PyDict.mem k d.
Proof. unfold PyDict.mem, PyDict.keys. cbn. rewrite (String.eqb_sym k x). reflexivity. Qed.

Lemma dict_mem_In k d : PyDict.mem k d = true <-> In k (PyDict.keys d).
Proof.
  unfold PyDict.mem. rewrite existsb_exists. split.
  - intros (x & Hin & ->%String.eqb_eq). exact Hin.
  - intros Hin. exists k. split; [exact Hin | apply String.eqb_refl].
Qed.

Lemma dict_keys_set k v d :
  PyDict.keys (PyDict.set k v d) =
  if PyDict.mem k d then PyDict.keys d else PyDict.keys d ++ [k].
Proof.
  induction d as [|[x v'] d IH]; [reflexivity|].
  cbn [PyDict.set]. rewrite dict_mem_cons.
  destruct (String.eqb x k); cbn [orb]; [reflexivity|].
  unfold PyDict.keys in *. cbn [List.map fst]. rewrite IH.
  destruct (PyDict.mem k d); reflexivity.
Qed.

Lemma dict_del_set_fresh k v d :
  PyDict.mem k d = false -> PyDict.del k (PyDict.set k v d) = d.
Proof.
  induction d as [|[x v'] d IH]; cbn [PyDict.set PyDict.del].
  - rewrite String.eqb_refl. reflexivity.
  - rewrite dict_mem_cons. intros [Hx Hd]%orb_false_iff.
    rewrite Hx. cbn [PyDict.del]. rewrite Hx, (IH Hd). reflexivity.
Qed.





End DictFacts.

(** X17: adding an account sets its settings to the empty object, also
    when the name was already there with other settings; the other
    accounts keep theirs; the list box shows the names in their old order
    with a new name at the end; and the file holds the new dictionary. *)
Theorem add_account_effect {V : Type} (empty : V) (username : string)
    (b : account_book V) (Hname : username <> "") :
  let b' := add_account empty (Some username) b in
  PyDict.get username (book_accounts b') = Some empty
  /\ (forall other, other <> username ->
        PyDict.get other (book_accounts b') = PyDict.get other (book_accounts b))
  /\ book_listbox b' =
       (if PyDict.mem username (book_accounts b)
        then PyDict.keys (book_accounts b)
        else PyDict.keys (book_accounts b) ++ [username])
  /\ book_file b' = Some (book_accounts b').
Proof.
  intros b'. subst b'. unfold add_account.
  apply String.eqb_neq in Hname. rewrite Hname. cbn.
  split; [apply dict_get_set_eq|]. split; [|split; [apply dict_keys_set|reflexivity]].
  intros other Hne. apply dict_get_set_ne. congruence.
Qed.

Lemma add_account_effect_witness :
  let b := AccountBook [("alex", ["skin"]); ("steve", [])] None ["alex"; "steve"] in
  let b' := add_account ([] : list string) (Some "alex") b in
  PyDict.get "alex" (book_accounts b') = Some []
  /\ (forall other, other <> "alex" ->
        PyDict.get other (book_accounts b') = PyDict.get other (book_accounts b))
  /\ book_listbox b' = ["alex"; "steve"]
  /\ book_file b' = Some (book_accounts b').
Proof.
  intros b b'.
  apply (add_account_effect ([] : list string) "alex" b). discriminate.
Defined.

(** X18: adding an account under a new name and then removing the last
    line of the list box gives back the accounts there were, on disk and
    in the list box as well. *)
Theorem add_then_remove_account {V : Type} (empty : V) (username : string)
    (b : account_book V)
    (Hname : username <> "")
    (Hfresh : PyDict.mem username (book_accounts b) = false) :
  remove_account (Some (List.length (book_accounts b)))
    (add_account empty (Some username) b) =
  AccountBook (book_accounts b) (Some (book_accounts b)) (PyDict.keys (book_accounts b)).
Proof.
  unfold add_account. apply String.eqb_neq in Hname. rewrite Hname.
  unfold remove_account, save_and_refresh. cbn [book_listbox book_accounts].
  rewrite dict_keys_set, Hfresh.
  assert ((PyDict.keys (book_accounts b) ++ [username]) !! List.length (book_accounts b)
          = Some username) as ->.
  { rewrite lookup_app_r by (unfold PyDict.keys; rewrite length_map; lia).
    unfold PyDict.keys. rewrite length_map, Nat.sub_diag. reflexivity. }
  cbn [default]. unfold id.
  assert (PyDict.mem username (PyDict.set username empty (book_accounts b)) = true) as ->.
  { apply dict_mem_In. rewrite dict_keys_set, Hfresh. apply in_app_iff. right. left. reflexivity. }
  rewrite dict_del_set_fresh by exact Hfresh. reflexivity.
Qed.

Lemma add_then_remove_account_witness :
  let b := AccountBook [("alex", ["skin"]); ("steve", [])] None ["alex"; "steve"] in
  remove_account (Some 2%nat) (add_account ([] : list string) (Some "herobrine") b) =
  AccountBook [("alex", ["skin"]); ("steve", [])]
    (Some [("alex", ["skin"]); ("steve", [])]) ["alex"; "steve"].
Proof.
  intros b.
  apply (add_then_remove_account ([] : list string) "herobrine" b);
    [discriminate | reflexivity].
Defined.



